(** * TOON format skill: structural eligibility analyzer and pre/post pipeline

    A shallow embedding of [index.ts] of the TOON format skill: the
    structural analyzer ([analyzeDataStructure], [isUniformObjectArray],
    [calculateUniformity]), the eligibility decision ([analyzeEligibility]),
    the token estimator ([countTokens], [calculateTokenSavings]) and the two
    pipeline entry points, both as free functions ([preProcessRequest],
    [postProcessResponse]) and as methods of the [TOONProcessor] class.

    Modelling conventions.
    - A JavaScript string is its sequence of UTF-16 code units ([jsstring]).
    - A JavaScript number is [NaN], an infinity, or a finite value carried as
      a rational in lowest terms; the rounding of binary64 arithmetic is not
      represented, and the two zeros are one value.
    - Objects are association lists in property order.
    - The codec ([@toon-format/toon]), [JSON.stringify], [JSON.parse] and the
      number formatters are collaborators of the module; they are the fields
      of the [Host] class, and every call to them is recorded in a trace. *)

From Stdlib Require Import List Bool Arith ZArith NArith QArith Qround Qreduction Lia.
From Stdlib Require Import Ascii String.
From Stdlib Require Import Permutation.
From Stdlib Require Qcanon.
Import ListNotations.

Set Implicit Arguments.

(* ------------------------------------------------------------------ *)
(** ** JavaScript strings *)

Definition jsstring := list N.

Definition jsstring_eq_dec : forall a b : jsstring, {a = b} + {a <> b} :=
  list_eq_dec N.eq_dec.

Definition jsstring_eqb (a b : jsstring) : bool :=
  if jsstring_eq_dec a b then true else false.

(** Code units of an ASCII literal. *)
Definition lit (s : string) : jsstring :=
  map N_of_ascii (list_ascii_of_string s).

(** [s.length] *)
Definition str_length (s : jsstring) : Z := Z.of_nat (List.length s).

(** [parts.join(sep)] *)
Fixpoint join (sep : jsstring) (parts : list jsstring) : jsstring :=
  match parts with
  | [] => []
  | [p] => p
  | p :: rest => p ++ sep ++ join sep rest
  end.

(** The code units removed by [String.prototype.trim]: ECMAScript WhiteSpace
    and LineTerminator. *)
Definition isTrimmable (c : N) : bool :=
  ((9 <=? c) && (c <=? 13) || (c =? 32) || (c =? 160) || (c =? 5760)
   || (8192 <=? c) && (c <=? 8202) || (c =? 8232) || (c =? 8233)
   || (c =? 8239) || (c =? 8287) || (c =? 12288) || (c =? 65279))%N.

Fixpoint trimStart (s : jsstring) : jsstring :=
  match s with
  | c :: r => if isTrimmable c then trimStart r else s
  | [] => []
  end.

Definition trim (s : jsstring) : jsstring :=
  rev (trimStart (rev (trimStart s))).

(* ------------------------------------------------------------------ *)
(** ** JavaScript numbers *)

Inductive number : Type :=
| NaN
| PosInf
| NegInf
| Fin (q : Q).

Module Number.

Definition of_nat (n : nat) : number := Fin (inject_Z (Z.of_nat n)).
Definition of_Z (z : Z) : number := Fin (inject_Z z).

Definition isZero (q : Q) : bool := Qeq_bool q 0.
Definition isNeg (q : Q) : bool := negb (Qle_bool 0 q).

(** [a + b] *)
Definition add (a b : number) : number :=
  match a, b with
  | NaN, _ | _, NaN => NaN
  | PosInf, NegInf | NegInf, PosInf => NaN
  | PosInf, _ | _, PosInf => PosInf
  | NegInf, _ | _, NegInf => NegInf
  | Fin p, Fin q => Fin (Qred (p + q))
  end.

Definition signedInf (negative : bool) : number :=
  if negative then NegInf else PosInf.

(** [a * b] *)
Definition mul (a b : number) : number :=
  match a, b with
  | NaN, _ | _, NaN => NaN
  | Fin p, Fin q => Fin (Qred (p * q))
  | Fin p, PosInf | PosInf, Fin p =>
      if isZero p then NaN else signedInf (isNeg p)
  | Fin p, NegInf | NegInf, Fin p =>
      if isZero p then NaN else signedInf (negb (isNeg p))
  | PosInf, PosInf | NegInf, NegInf => PosInf
  | PosInf, NegInf | NegInf, PosInf => NegInf
  end.

(** [a / b]; a zero divisor is taken as [+0] (every divisor in this module
    is a count or a length). *)
Definition div (a b : number) : number :=
  match a, b with
  | NaN, _ | _, NaN => NaN
  | Fin p, Fin q =>
      if isZero q
      then (if isZero p then NaN else signedInf (isNeg p))
      else Fin (Qred (p / q))
  | Fin _, (PosInf | NegInf) => Fin 0
  | (PosInf | NegInf), (PosInf | NegInf) => NaN
  | PosInf, Fin q => signedInf (isNeg q)
  | NegInf, Fin q => signedInf (negb (isNeg q))
  end.

(** The IEEE comparison; [None] when an operand is [NaN]. *)
Definition cmp (a b : number) : option comparison :=
  match a, b with
  | NaN, _ | _, NaN => None
  | PosInf, PosInf | NegInf, NegInf => Some Eq
  | PosInf, _ | _, NegInf => Some Gt
  | NegInf, _ | _, PosInf => Some Lt
  | Fin p, Fin q => Some (p ?= q)%Q
  end.

(** [a >= b] *)
Definition ge (a b : number) : bool :=
  match cmp a b with Some Gt | Some Eq => true | _ => false end.
(** [a <= b] *)
Definition le (a b : number) : bool :=
  match cmp a b with Some Lt | Some Eq => true | _ => false end.
(** [a > b] *)
Definition gt (a b : number) : bool :=
  match cmp a b with Some Gt => true | _ => false end.
(** [a < b] *)
Definition lt (a b : number) : bool :=
  match cmp a b with Some Lt => true | _ => false end.


End Number.

Declare Scope jsnum_scope.
Delimit Scope jsnum_scope with js.
Infix "+" := Number.add : jsnum_scope.
Infix "*" := Number.mul : jsnum_scope.
Infix "/" := Number.div : jsnum_scope.
Infix ">=?" := Number.ge (at level 70) : jsnum_scope.
Infix "<=?" := Number.le (at level 70) : jsnum_scope.
Infix ">?" := Number.gt (at level 70) : jsnum_scope.
Infix "<?" := Number.lt (at level 70) : jsnum_scope.

(* ------------------------------------------------------------------ *)
(** ** Values ([any]) *)

Unset Elimination Schemes.
Inductive Value : Type :=
| VUndefined
| VNull
| VBool (b : bool)
| VNum (n : number)
| VStr (s : jsstring)
| VArr (items : list Value)
| VObj (fields : list (jsstring * Value)).
Set Elimination Schemes.

(** Structural induction on values, with the hypothesis available for every
    array element and every property value. *)
Section ValueInduction.
Variable P : Value -> Prop.
Hypothesis P_undefined : P VUndefined.
Hypothesis P_null : P VNull.
Hypothesis P_bool : forall b, P (VBool b).
Hypothesis P_num : forall n, P (VNum n).
Hypothesis P_str : forall s, P (VStr s).
Hypothesis P_arr : forall items, Forall P items -> P (VArr items).
Hypothesis P_obj :
  forall fields, Forall (fun kv => P (snd kv)) fields -> P (VObj fields).

Fixpoint Value_ind (v : Value) : P v :=
  match v with
  | VUndefined => P_undefined
  | VNull => P_null
  | VBool b => P_bool b
  | VNum n => P_num n
  | VStr s => P_str s
  | VArr items =>
      P_arr ((fix all (l : list Value) : Forall P l :=
                match l with
                | [] => Forall_nil P
                | x :: r => Forall_cons x (Value_ind x) (all r)
                end) items)
  | VObj fields =>
      P_obj ((fix all (l : list (jsstring * Value))
                : Forall (fun kv => P (snd kv)) l :=
                match l with
                | [] => Forall_nil _
                | kv :: r => Forall_cons kv (Value_ind (snd kv)) (all r)
                end) fields)
  end.
End ValueInduction.

(** [!!v] *)
Definition truthy (v : Value) : bool :=
  match v with
  | VUndefined | VNull => false
  | VBool b => b
  | VNum NaN => false
  | VNum (Fin q) => negb (Number.isZero q)
  | VNum _ => true
  | VStr s => match s with [] => false | _ => true end
  | VArr _ | VObj _ => true
  end.

(** [v !== null && typeof v === 'object' && !Array.isArray(v)] *)
Definition isPlainObject (v : Value) : bool :=
  match v with VObj _ => true | _ => false end.

(** [Object.keys(v)]; only ever applied to plain objects here: both call
    sites sit behind the every-element-is-an-object test. *)
Definition Object_keys (v : Value) : list jsstring :=
  match v with VObj fields => map fst fields | _ => [] end.

(** [field in obj], for the own properties of a plain object. Inherited
    properties play no part: the one caller runs on arrays whose elements
    all carry every reference field as an own property
    ([sameKeysAs_complete] below). *)
Definition hasProperty (field : jsstring) (obj : Value) : bool :=
  existsb (jsstring_eqb field) (Object_keys obj).

(** [arr[0]] *)
Definition first (arr : list Value) : Value := hd VUndefined arr.

(* ------------------------------------------------------------------ *)
(** ** Structural analyzer *)

(** [new Set(keys)]: the distinct keys; [.size] is its length. *)
Definition Set_of (keys : list jsstring) : list jsstring :=
  nodup jsstring_eq_dec keys.

Definition Set_has (s : list jsstring) (k : jsstring) : bool :=
  existsb (jsstring_eqb k) s.

Definition isUniformObjectArray (arr : list Value) : bool :=
  if Nat.eqb (List.length arr) 0 then false
  else if negb (forallb isPlainObject arr) then false
  else
    let firstKeys := Set_of (Object_keys (first arr)) in
    forallb (fun item =>
               let keys := Object_keys item in
               Nat.eqb (List.length keys) (List.length firstKeys)
               && forallb (fun k => Set_has firstKeys k) keys)
            arr.

(** The number of (element, reference field) pairs with the field present:
    the two nested [forEach] loops of [calculateUniformity]. *)
Definition countPresent (referenceFields : list jsstring) (arr : list Value) : nat :=
  fold_left
    (fun presentFields obj =>
       fold_left
         (fun presentFields field =>
            if hasProperty field obj then S presentFields else presentFields)
         referenceFields presentFields)
    arr 0%nat.

Definition calculateUniformity (arr : list Value) : number :=
  if Nat.eqb (List.length arr) 0 then Fin 1
  else
    let referenceFields := Object_keys (first arr) in
    let totalFields := (List.length referenceFields * List.length arr)%nat in
    let presentFields := countPresent referenceFields arr in
    (Number.of_nat presentFields / Number.of_nat totalFields)%js.

(** The five counters closed over by [traverse]. *)
Record Counters : Type := mkCounters {
  totalArrays : nat;
  tabularArrays : nat;
  maxDepth : nat;
  uniformitySum : number;
  uniformityCount : nat
}.

Definition initialCounters : Counters :=
  mkCounters 0 0 0 (Fin 0) 0.

Definition visitDepth (depth : nat) (c : Counters) : Counters :=
  mkCounters (totalArrays c) (tabularArrays c) (Nat.max (maxDepth c) depth)
             (uniformitySum c) (uniformityCount c).

Definition countArray (c : Counters) : Counters :=
  mkCounters (S (totalArrays c)) (tabularArrays c) (maxDepth c)
             (uniformitySum c) (uniformityCount c).

Definition countTabular (u : number) (c : Counters) : Counters :=
  mkCounters (totalArrays c) (S (tabularArrays c)) (maxDepth c)
             (uniformitySum c + u)%js (S (uniformityCount c)).

Fixpoint traverse (obj : Value) (depth : nat) (c : Counters) : Counters :=
  let c := visitDepth depth c in
  match obj with
  | VArr items =>
      let c := countArray c in
      let c :=
        if Nat.ltb 0 (List.length items) && isUniformObjectArray items
        then countTabular (calculateUniformity items) c
        else c in
      fold_left (fun c item => traverse item (S depth) c) items c
  | VObj fields =>
      fold_left (fun c kv => traverse (snd kv) (S depth) c) fields c
  | _ => c
  end.

Record StructuralStats : Type := mkStats {
  st_percentTabular : number;
  st_nestedDepth : nat;
  st_uniformityScore : number
}.

Definition assemble (c : Counters) : StructuralStats :=
  let percentTabular :=
    if Nat.ltb 0 (totalArrays c)
    then (Number.of_nat (tabularArrays c) / Number.of_nat (totalArrays c) * Fin 100)%js
    else Fin 0 in
  let uniformityScore :=
    if Nat.ltb 0 (uniformityCount c)
    then (uniformitySum c / Number.of_nat (uniformityCount c))%js
    else Fin 1 in
  mkStats percentTabular (maxDepth c) uniformityScore.

Definition analyzeDataStructure (data : Value) : StructuralStats :=
  assemble (traverse data 0 initialCounters).

(* ------------------------------------------------------------------ *)
(** ** Eligibility decision *)

Record EligibilityConfig : Type := mkEligibilityConfig {
  minTabularPercent : number;
  maxNestedDepth : number;
  minUniformityScore : number
}.

Record TOONConfig : Type := mkTOONConfig {
  eligibility : EligibilityConfig
}.

(** [Partial<TOONConfig>] *)
Record PartialTOONConfig : Type := mkPartialTOONConfig {
  eligibility_opt : option EligibilityConfig
}.

Definition DEFAULT_CONFIG : TOONConfig :=
  mkTOONConfig (mkEligibilityConfig (Fin 60) (Fin 4) (Fin (4 # 5))).

(** [{ ...base, ...over }] on configurations *)
Definition spreadConfig (base : TOONConfig) (over : option PartialTOONConfig) : TOONConfig :=
  match over with
  | Some (mkPartialTOONConfig (Some e)) => mkTOONConfig e
  | _ => base
  end.

Record EligibilityAnalysis : Type := mkEligibilityAnalysis {
  percentTabular : number;
  nestedDepth : nat;
  uniformityScore : number;
  shouldUseTOON : bool;
  reason : jsstring
}.

(** What a call may throw. *)
Inductive Exn : Type :=
| TypeError
| SyntaxError
| CodecError.

(** How a call ends. *)
Inductive outcome (A : Type) : Type :=
| Returned (a : A)
| Thrown (e : Exn).
Arguments Returned {A} a.
Arguments Thrown {A} e.

(** The collaborators of the module: the codec, the JSON built-ins and the
    number formatters. [JSON_stringify] returns [None] for [undefined]. *)
Class Host : Type := mkHost {
  toonEncode : Value -> outcome jsstring;
  toonDecode : jsstring -> outcome Value;
  JSON_stringify : Value -> outcome (option jsstring);
  JSON_parse : jsstring -> outcome Value;
  Number_toString : number -> jsstring;
  Number_toFixed : number -> nat -> jsstring
}.

(** The threshold conjunction of [analyzeEligibility], for the configuration
    object it reads. *)
Definition thresholdsMet (config : TOONConfig) (stats : StructuralStats) : bool :=
  (st_percentTabular stats >=? minTabularPercent (eligibility config))%js
  && (Number.of_nat (st_nestedDepth stats) <=? maxNestedDepth (eligibility config))%js
  && (st_uniformityScore stats >=? minUniformityScore (eligibility config))%js.

Section Eligibility.
Context {host : Host}.

Definition reasons (config : TOONConfig) (stats : StructuralStats) : list jsstring :=
  (if (st_percentTabular stats >=? Fin 80)%js
   then [lit "highly tabular data (ideal for TOON)"]
   else if (st_percentTabular stats >=? Fin 60)%js
   then [lit "moderately tabular data (good fit for TOON)"]
   else [lit "only " ++ Number_toString (st_percentTabular stats)
           ++ lit "% tabular (TOON less beneficial)"])
  ++ (if (Number.of_nat (st_nestedDepth stats) >? maxNestedDepth (eligibility config))%js
      then [lit "deep nesting (" ++ Number_toString (Number.of_nat (st_nestedDepth stats))
              ++ lit " levels)"]
      else [])
  ++ (if (st_uniformityScore stats <? minUniformityScore (eligibility config))%js
      then [lit "low uniformity score (" ++ Number_toFixed (st_uniformityScore stats) 2
              ++ lit ")"]
      else []).

(** The body of [analyzeEligibility] after [stats] is computed, with the
    configuration object it reads as an argument. *)
Definition decideEligibility (config : TOONConfig) (stats : StructuralStats)
  : EligibilityAnalysis :=
  mkEligibilityAnalysis
    (st_percentTabular stats)
    (st_nestedDepth stats)
    (st_uniformityScore stats)
    (thresholdsMet config stats)
    (join (lit "; ") (reasons config stats)).

(** [analyzeEligibility(data)]: the configuration read is the module
    constant [DEFAULT_CONFIG]. *)
Definition analyzeEligibility (data : Value) : EligibilityAnalysis :=
  decideEligibility DEFAULT_CONFIG (analyzeDataStructure data).

End Eligibility.

(* ------------------------------------------------------------------ *)
(** ** Calls, traces and exceptions *)

Inductive Call : Type :=
| Call_analyzeEligibility (data : Value)
| Call_calculateTokenSavings (data : Value)
| Call_JSON_stringify (data : Value)
| Call_encodeToTOON (data : Value)
| Call_decodeFromTOON (text : jsstring)
| Call_JSON_parse (text : jsstring).

(** A computation: the calls it made, in order, and how it ended. *)
Definition M (A : Type) : Type := (list Call * outcome A)%type.

Definition ret {A} (a : A) : M A := ([], Returned a).
Definition throw {A} (e : Exn) : M A := ([], Thrown e).

Definition bind {A B} (m : M A) (k : A -> M B) : M B :=
  match m with
  | (t, Returned a) => let (t', r) := k a in (t ++ t', r)
  | (t, Thrown e) => (t, Thrown e)
  end.

(** [try { m } catch { handler }] *)
Definition tryCatch {A} (m : M A) (handler : Exn -> M A) : M A :=
  match m with
  | (t, Thrown e) => let (t', r) := handler e in (t ++ t', r)
  | done => done
  end.

(** A logged call with the given outcome. *)
Definition invoke {A} (c : Call) (r : outcome A) : M A := ([c], r).

(** The body of a module function, logged as a call to it. *)
Definition entered {A} (c : Call) (body : M A) : M A :=
  (c :: fst body, snd body).

Definition trace {A} (m : M A) : list Call := fst m.
Definition result {A} (m : M A) : outcome A := snd m.

Notation "x <- m ;; k" := (bind m (fun x => k))
  (at level 61, m at next level, right associativity).

(* ------------------------------------------------------------------ *)
(** ** Token estimator *)

Record TokenMetrics : Type := mkTokenMetrics {
  original : Z;
  toon : Z;
  savings : Z;
  percentSaved : number
}.

(** [Math.ceil(text.length / 4)] *)
Definition countTokens (text : jsstring) : Z :=
  Qceiling (inject_Z (str_length text) / 4).

(** ** Requests and responses *)

Record LLMRequest : Type := mkLLMRequest {
  systemPrompt : jsstring;
  userMessage : jsstring;
  data : Value
}.

Record ProcessedRequest : Type := mkProcessedRequest {
  pr_systemPrompt : jsstring;
  pr_userMessage : jsstring;
  pr_data : Value;
  toonProcessed : bool;
  metrics : option TokenMetrics
}.

Record PreProcessResult : Type := mkPreProcessResult {
  pre_request : ProcessedRequest;
  pre_eligibility : EligibilityAnalysis
}.

(** [{ ...request, toonProcessed: false }] *)
Definition unprocessed (request : LLMRequest) : ProcessedRequest :=
  mkProcessedRequest (systemPrompt request) (userMessage request) (data request)
                     false None.

Definition noDataReport : EligibilityAnalysis :=
  mkEligibilityAnalysis (Fin 0) 0 (Fin 0) false (lit "no data").

Section Pipeline.
Context {host : Host}.

Definition encodeToTOON (data : Value) : M jsstring :=
  invoke (Call_encodeToTOON data) (toonEncode data).

Definition decodeFromTOON (toonData : jsstring) : M Value :=
  invoke (Call_decodeFromTOON toonData) (toonDecode toonData).

Definition calculateTokenSavings (jsonData : Value) : M TokenMetrics :=
  jsonString <- invoke (Call_JSON_stringify jsonData) (JSON_stringify jsonData) ;;
  toonString <- encodeToTOON jsonData ;;
  match jsonString with
  | None => throw TypeError
  | Some jsonString =>
      let original := countTokens jsonString in
      let toon := countTokens toonString in
      let savings := (original - toon)%Z in
      let percentSaved :=
        if (0 <? original)%Z
        then (Number.of_Z savings / Number.of_Z original * Fin 100)%js
        else Fin 0 in
      ret (mkTokenMetrics original toon savings percentSaved)
  end.

Definition preProcessRequest (request : LLMRequest) : M PreProcessResult :=
  if negb (truthy (data request))
  then ret (mkPreProcessResult (unprocessed request) noDataReport)
  else
    eligibility <- entered (Call_analyzeEligibility (data request))
                           (ret (analyzeEligibility (data request))) ;;
    if negb (shouldUseTOON eligibility)
    then ret (mkPreProcessResult (unprocessed request) eligibility)
    else
      metrics <- entered (Call_calculateTokenSavings (data request))
                         (calculateTokenSavings (data request)) ;;
      toonData <- encodeToTOON (data request) ;;
      ret (mkPreProcessResult
             (mkProcessedRequest (systemPrompt request) (userMessage request)
                                 (VStr toonData) true (Some metrics))
             eligibility).

End Pipeline.

(* ------------------------------------------------------------------ *)
(** ** Regular expressions of the format sniff *)

(** The patterns used are sequences of literal code units and of [+]
    repetitions of a character class. *)
Inductive atom : Type :=
| Lit (c : N)
| OneOrMore (cls : N -> bool).

(** Does the pattern match a prefix of [s]? *)
Fixpoint matchHere (p : list atom) (s : jsstring) {struct s} : bool :=
  match p with
  | [] => true
  | Lit c :: p' =>
      match s with
      | x :: r => (x =? c)%N && matchHere p' r
      | [] => false
      end
  | OneOrMore cls :: p' =>
      match s with
      | x :: r => cls x && (matchHere (OneOrMore cls :: p') r || matchHere p' r)
      | [] => false
      end
  end.

(** [re.test(s)] for a pattern without anchors: a match at some position. *)
Fixpoint RegExp_test (p : list atom) (s : jsstring) : bool :=
  matchHere p s
  || match s with
     | [] => false
     | _ :: r => RegExp_test p r
     end.

(** [\d] *)
Definition isDigit (c : N) : bool := ((48 <=? c) && (c <=? 57))%N.

(** [/\[\d+\]/] *)
Definition re_arrayLength : list atom :=
  [Lit 91; OneOrMore isDigit; Lit 93].

(** [/\{[^}]+\}/] *)
Definition re_fieldList : list atom :=
  [Lit 123; OneOrMore (fun c => negb (c =? 125)%N); Lit 125].

Definition isTOONFormat (text : jsstring) : bool :=
  RegExp_test re_arrayLength text && RegExp_test re_fieldList text.

(** What it is for a pattern to match exactly the string [s]. *)
Inductive Matches : list atom -> jsstring -> Prop :=
| Matches_nil : Matches [] []
| Matches_lit c p s : Matches p s -> Matches (Lit c :: p) (c :: s)
| Matches_plus cls p run s :
    run <> [] -> Forall (fun x => cls x = true) run -> Matches p s ->
    Matches (OneOrMore cls :: p) (run ++ s).

(** [s] contains a match of the pattern. *)
Definition Contains (p : list atom) (s : jsstring) : Prop :=
  exists pre m post, s = pre ++ m ++ post /\ Matches p m.

(* ------------------------------------------------------------------ *)
(** ** Post-processing *)

Record LLMResponse : Type := mkLLMResponse {
  content : jsstring
}.

Inductive Format : Type := format_toon | format_json | format_none.

Record PostProcessResult : Type := mkPostProcessResult {
  parsed : option Value;
  success : bool;
  format : Format;
  error : option jsstring
}.

Section PostProcess.
Context {host : Host}.

Definition postProcessResponse (response : LLMResponse) : M PostProcessResult :=
  match content response with
  | [] => ret (mkPostProcessResult None false format_none None)
  | _ =>
      let trimmed := trim (content response) in
      if negb (isTOONFormat trimmed)
      then ret (mkPostProcessResult None false format_none None)
      else
        tryCatch
          (parsed <- decodeFromTOON trimmed ;;
           ret (mkPostProcessResult (Some parsed) true format_toon None))
          (fun toonError =>
             tryCatch
               (parsed <- invoke (Call_JSON_parse (content response))
                                 (JSON_parse (content response)) ;;
                ret (mkPostProcessResult (Some parsed) true format_json
                       (Some (lit "TOON decode failed, fell back to JSON"))))
               (fun _ =>
                  ret (mkPostProcessResult None false format_none
                         (Some (lit "Both formats failed")))))
  end.

End PostProcess.

(* ------------------------------------------------------------------ *)
(** ** The [TOONProcessor] class *)

Module TOONProcessor.

(** The instance state: the private [config] field. *)
Record t : Type := mk { config : TOONConfig }.

(** [constructor(config?)] *)
Definition new (config : option PartialTOONConfig) : t :=
  mk (spreadConfig DEFAULT_CONFIG config).

Definition getConfig (self : t) : TOONConfig := config self.


Section Methods.
Context {host : Host}.

Definition preProcess (self : t) (request : LLMRequest) : M PreProcessResult :=
  if negb (truthy (data request))
  then ret (mkPreProcessResult (unprocessed request) noDataReport)
  else
    eligibility <- entered (Call_analyzeEligibility (data request))
                           (ret (analyzeEligibility (data request))) ;;
    if negb (shouldUseTOON eligibility)
    then ret (mkPreProcessResult (unprocessed request) eligibility)
    else
      metrics <- entered (Call_calculateTokenSavings (data request))
                         (calculateTokenSavings (data request)) ;;
      toonData <- encodeToTOON (data request) ;;
      ret (mkPreProcessResult
             (mkProcessedRequest (systemPrompt request) (userMessage request)
                                 (VStr toonData) true (Some metrics))
             eligibility).

Definition postProcess (self : t) (response : LLMResponse) : M PostProcessResult :=
  match content response with
  | [] => ret (mkPostProcessResult None false format_none None)
  | _ =>
      let trimmed := trim (content response) in
      if negb (isTOONFormat trimmed)
      then ret (mkPostProcessResult None false format_none None)
      else
        tryCatch
          (parsed <- decodeFromTOON trimmed ;;
           ret (mkPostProcessResult (Some parsed) true format_toon None))
          (fun _ =>
             tryCatch
               (parsed <- invoke (Call_JSON_parse (content response))
                                 (JSON_parse (content response)) ;;
                ret (mkPostProcessResult (Some parsed) true format_json
                       (Some (lit "TOON decode failed, fell back to JSON"))))
               (fun _ =>
                  ret (mkPostProcessResult None false format_none
                         (Some (lit "Both formats failed")))))
  end.

End Methods.

End TOONProcessor.

(* ------------------------------------------------------------------ *)
(** ** Predicates used in the statements *)

(** No array occurs anywhere in the tree. *)
Fixpoint noArrays (v : Value) : bool :=
  match v with
  | VArr _ => false
  | VObj fields => forallb (fun kv => noArrays (snd kv)) fields
  | _ => true
  end.

(** [item] has as many keys as [ref] has distinct keys, all of them keys of
    [ref]. *)
Definition sameKeysAs (ref item : Value) : Prop :=
  List.length (Object_keys item) = List.length (Set_of (Object_keys ref))
  /\ incl (Object_keys item) (Object_keys ref).

(** The falsy values: [undefined], [null], [false], [0], [NaN] and [""]. *)
Inductive Falsy : Value -> Prop :=
| Falsy_undefined : Falsy VUndefined
| Falsy_null : Falsy VNull
| Falsy_false : Falsy (VBool false)
| Falsy_zero q : (q == 0)%Q -> Falsy (VNum (Fin q))
| Falsy_NaN : Falsy (VNum NaN)
| Falsy_empty : Falsy (VStr []).

(** The counters other than [maxDepth] agree. *)
Definition sameTallies (c c' : Counters) : Prop :=
  totalArrays c' = totalArrays c
  /\ tabularArrays c' = tabularArrays c
  /\ uniformitySum c' = uniformitySum c
  /\ uniformityCount c' = uniformityCount c.



(* ------------------------------------------------------------------ *)
(** ** Sample inputs *)

Definition int (z : Z) : Value := VNum (Fin (inject_Z z)).
Definition str (s : string) : Value := VStr (lit s).

(** [{level1:{level2:{level3:{level4:{deep:"value"}}}}}] *)
Definition deeplyNested : Value :=
  VObj [(lit "level1",
    VObj [(lit "level2",
      VObj [(lit "level3",
        VObj [(lit "level4",
          VObj [(lit "deep", str "value")])])])])].


(** [[{id:1,name:"Alice"},{id:2,name:"Bob"}]] *)
Definition twoUsers : list Value :=
  [VObj [(lit "id", int 1); (lit "name", str "Alice")];
   VObj [(lit "id", int 2); (lit "name", str "Bob")]].

(** [{deep:{nested:{value:"test"}}}] *)
Definition nestedOnly : Value :=
  VObj [(lit "deep", VObj [(lit "nested", VObj [(lit "value", str "test")])])].

(** [{eligibility:{minTabularPercent:0, maxNestedDepth:10, minUniformityScore:0}}] *)
Definition lenient : PartialTOONConfig :=
  mkPartialTOONConfig (Some (mkEligibilityConfig (Fin 0) (Fin 10) (Fin 0))).


(** The text [{"a":[1]}]: it passes the sniff and is JSON, not TOON. *)
Definition jsonLookalike : jsstring :=
  lit "{" ++ [34%N] ++ lit "a" ++ [34%N] ++ lit ":[1]}".

(** A host whose codec encodes everything to one fixed table, decodes
    nothing, and whose JSON parser knows the single text [jsonLookalike],
    with white space around it. *)
Definition sampleHost : Host :=
  mkHost
    (fun _ => Returned (lit "rows[1]{a}: 1"))
    (fun _ => Thrown CodecError)
    (fun v => match v with
              | VUndefined => Returned None
              | _ => Returned (Some (lit "{ rows: [ { a: 1 } ] }"))
              end)
    (fun text => if jsstring_eqb (trim text) jsonLookalike
                 then Returned (VObj [(lit "a", VArr [int 1])])
                 else Thrown SyntaxError)
    (fun _ => lit "0")
    (fun _ _ => lit "0.00").


(** The three results of a post-processing that does not decode TOON. *)
Definition sniffRejected : PostProcessResult :=
  mkPostProcessResult None false format_none None.

Definition jsonFallback (v : Value) : PostProcessResult :=
  mkPostProcessResult (Some v) true format_json
                      (Some (lit "TOON decode failed, fell back to JSON")).

Definition bothFailed : PostProcessResult :=
  mkPostProcessResult None false format_none (Some (lit "Both formats failed")).

(* ------------------------------------------------------------------ *)
(** ** Measures of a value tree *)

(** The number of edges from the root to the deepest node, scalars
    included. *)
Fixpoint height (v : Value) : nat :=
  match v with
  | VArr items => list_max (map (fun item => S (height item)) items)
  | VObj fields => list_max (map (fun kv => S (height (snd kv))) fields)
  | _ => 0
  end.

(** The number of arrays in the tree. *)
Fixpoint countArrays (v : Value) : nat :=
  match v with
  | VArr items => S (list_sum (map countArrays items))
  | VObj fields => list_sum (map (fun kv => countArrays (snd kv)) fields)
  | _ => 0
  end.

(** The number of arrays in the tree that pass [isUniformObjectArray]. *)
Fixpoint countCandidates (v : Value) : nat :=
  match v with
  | VArr items =>
      ((if isUniformObjectArray items then 1 else 0)
       + list_sum (map countCandidates items))%nat
  | VObj fields => list_sum (map (fun kv => countCandidates (snd kv)) fields)
  | _ => 0
  end.

(** Neither an array nor an object. *)
Definition isScalar (v : Value) : bool :=
  match v with
  | VArr _ | VObj _ => false
  | _ => true
  end.

(** Every object in the tree has pairwise distinct property names, as every
    JavaScript object has. *)
Fixpoint distinctKeys (v : Value) : Prop :=
  match v with
  | VArr items => fold_right (fun item rest => distinctKeys item /\ rest) True items
  | VObj fields =>
      NoDup (map fst fields)
      /\ fold_right (fun kv rest => distinctKeys (snd kv) /\ rest) True fields
  | _ => True
  end.

(** The running uniformity sum is either poisoned by a [NaN] or equal to the
    number of candidates met so far. *)
Definition sumTracksCount (c : Counters) : Prop :=
  uniformitySum c = NaN \/ uniformitySum c = Number.of_nat (uniformityCount c).

(** [{users:[{id:1,name:"Alice"},{id:2,name:"Bob"}]}] *)
Definition usersTable : Value := VObj [(lit "users", VArr twoUsers)].

(** [[{name:"Bob",id:2},{id:1,name:"Alice"}]]: the same keys in two orders. *)
Definition shuffledUsers : list Value :=
  [VObj [(lit "name", str "Bob"); (lit "id", int 2)];
   VObj [(lit "id", int 1); (lit "name", str "Alice")]].

(** ** More sample hosts and texts *)

(** A host like [sampleHost] whose encoder throws. *)
Definition brokenEncoderHost : Host :=
  mkHost
    (fun _ => Thrown CodecError)
    (@toonDecode sampleHost)
    (@JSON_stringify sampleHost)
    (@JSON_parse sampleHost)
    (@Number_toString sampleHost)
    (@Number_toFixed sampleHost).

(** The text [rows[1]{a}: 1]. *)
Definition oneRowTable : jsstring := lit "rows[1]{a}: 1".

(** A host like [sampleHost] whose decoder knows the text [oneRowTable]. *)
Definition decodingHost : Host :=
  mkHost
    (@toonEncode sampleHost)
    (fun text => if jsstring_eqb text oneRowTable
                 then Returned (VObj [(lit "rows", VArr [VObj [(lit "a", int 1)]])])
                 else Thrown CodecError)
    (@JSON_stringify sampleHost)
    (@JSON_parse sampleHost)
    (@Number_toString sampleHost)
    (@Number_toFixed sampleHost).

(** The two commentaries an accepted report can carry. *)
Definition highlyTabular : jsstring := lit "highly tabular data (ideal for TOON)".
Definition moderatelyTabular : jsstring :=
  lit "moderately tabular data (good fit for TOON)".

(** ** Configuration updates *)


(* ------------------------------------------------------------------ *)
(** ** The hooks layer ([hooks.ts]) *)

Record TOONHookConfig : Type := mkTOONHookConfig {
  addInstructions : option bool;
  hook_minTabularPercent : option number;
  hook_maxNestedDepth : option number;
  logMetrics : option bool
}.

Definition DEFAULT_HOOK_CONFIG : TOONHookConfig :=
  mkTOONHookConfig (Some true) (Some (Fin 60)) (Some (Fin 4)) (Some true).

(** A property of a spread: the overriding object's, when it has one. *)
Definition overriding {A} (base over : option A) : option A :=
  match over with
  | Some x => Some x
  | None => base
  end.

(** [{ ...base, ...over }] on hook configurations *)
Definition spreadHookConfig (base : TOONHookConfig) (over : option TOONHookConfig)
  : TOONHookConfig :=
  match over with
  | None => base
  | Some o =>
      mkTOONHookConfig
        (overriding (addInstructions base) (addInstructions o))
        (overriding (hook_minTabularPercent base) (hook_minTabularPercent o))
        (overriding (hook_maxNestedDepth base) (hook_maxNestedDepth o))
        (overriding (logMetrics base) (logMetrics o))
  end.

(** [x || fallback] on an optional number *)
Definition orNumber (x : option number) (fallback : number) : number :=
  match x with
  | Some n => if truthy (VNum n) then n else fallback
  | None => fallback
  end.

(** The truthiness of an optional boolean *)
Definition isTrue (b : option bool) : bool :=
  match b with
  | Some true => true
  | _ => false
  end.

(** What the hooks layer does besides the calls of the core: it writes to
    the console and awaits the caller's LLM function. *)
Inductive HookEvent : Type :=
| Core (c : Call)
| Console_log (line : jsstring)
| LLM_call (request : ProcessedRequest).

Definition H (A : Type) : Type := (list HookEvent * outcome A)%type.

Definition hret {A} (a : A) : H A := ([], Returned a).

Definition hbind {A B} (m : H A) (k : A -> H B) : H B :=
  match m with
  | (t, Returned a) => let (t', r) := k a in (t ++ t', r)
  | (t, Thrown e) => (t, Thrown e)
  end.

(** A computation of the core, run from the hooks layer. *)
Definition liftCore {A} (m : M A) : H A := (map Core (fst m), snd m).

Definition emit (e : HookEvent) : H unit := ([e], Returned tt).

Notation "x <~ m ;; k" := (hbind m (fun x => k))
  (at level 61, m at next level, right associativity).

(** The block appended to the system prompt by [AutoTOON.addTOONInstructions]:
    the template literal after [${prompt}], line by line. *)
Definition instructionLines : list jsstring :=
  [ [];
    [];
    lit "## Data Format";
    [];
    lit "Structured data uses TOON (Token-Oriented Object Notation):";
    lit "```toon";
    lit "arrayName[N]{field1,field2}:";
    lit "  value1,value2";
    lit "  value3,value4";
    lit "```";
    [];
    lit "- [N] indicates array length";
    lit "- Values are comma-separated";
    lit "- Use TOON format for structured responses to save tokens.";
    [] ].

Definition instructionBlock : jsstring := join [10%N] instructionLines.

Record ProcessResult : Type := mkProcessResult {
  originalRequest : LLMRequest;
  toonRequest : ProcessedRequest;
  res_eligibility : EligibilityAnalysis;
  res_metrics : option TokenMetrics;
  llmResponse : LLMResponse;
  parsedResponse : Value;
  tokenSavings : Z
}.

(** [toonRequest.systemPrompt = prompt] *)
Definition withSystemPrompt (prompt : jsstring) (r : ProcessedRequest) : ProcessedRequest :=
  mkProcessedRequest prompt (pr_userMessage r) (pr_data r) (toonProcessed r) (metrics r).

(** [postResult.parsed || llmResponse.content] *)
Definition parsedOrContent (postResult : PostProcessResult) (response : LLMResponse)
  : Value :=
  match parsed postResult with
  | Some v => if truthy v then v else VStr (content response)
  | None => VStr (content response)
  end.

(** [toonRequest.metrics?.savings || 0] *)
Definition savingsOrZero (m : option TokenMetrics) : Z :=
  match m with
  | Some m => if (savings m =? 0)%Z then 0%Z else savings m
  | None => 0%Z
  end.

Module AutoTOON.

(** The instance state: the private [config] and [processor] fields. *)
Record t : Type := mk { config : TOONHookConfig; processor : TOONProcessor.t }.

(** [constructor(config?)] *)
Definition new (config : option TOONHookConfig) : t :=
  let merged := spreadHookConfig DEFAULT_HOOK_CONFIG config in
  mk merged
     (TOONProcessor.new
        (Some (mkPartialTOONConfig
                 (Some (mkEligibilityConfig
                          (orNumber (hook_minTabularPercent merged) (Fin 60))
                          (orNumber (hook_maxNestedDepth merged) (Fin 4))
                          (Fin (4 # 5))))))).

Definition addTOONInstructions (prompt : jsstring) : jsstring :=
  prompt ++ instructionBlock.

Section Methods.
Context {host : Host}.

(** The line logged when metrics are present:
    [`📝 TOON: ${percentSaved.toFixed(1)}% token savings (${savings} tokens)`];
    the emoji is the surrogate pair D83D DCDD. *)
Definition metricsLine (m : TokenMetrics) : jsstring :=
  [55357%N; 56541%N] ++ lit " TOON: " ++ Number_toFixed (percentSaved m) 1
    ++ lit "% token savings (" ++ Number_toString (Number.of_Z (savings m))
    ++ lit " tokens)".

(** [process(request, llmCall)]; awaiting [llmCall] is a call that returns
    the response or throws. *)
Definition process (self : t) (request : LLMRequest)
           (llmCall : ProcessedRequest -> outcome LLMResponse) : H ProcessResult :=
  pre <~ liftCore (TOONProcessor.preProcess (processor self) request) ;;
  let toonRequest := pre_request pre in
  let eligibility := pre_eligibility pre in
  _ <~ match metrics toonRequest with
       | Some m =>
           if isTrue (logMetrics (config self))
           then emit (Console_log (metricsLine m))
           else hret tt
       | None => hret tt
       end ;;
  let toonRequest :=
    if isTrue (addInstructions (config self)) && toonProcessed toonRequest
    then withSystemPrompt (addTOONInstructions (pr_systemPrompt toonRequest)) toonRequest
    else toonRequest in
  llmResponse <~ ([LLM_call toonRequest], llmCall toonRequest) ;;
  postResult <~ liftCore (TOONProcessor.postProcess (processor self) llmResponse) ;;
  hret (mkProcessResult request toonRequest eligibility (metrics toonRequest)
                        llmResponse
                        (parsedOrContent postResult llmResponse)
                        (savingsOrZero (metrics toonRequest))).

End Methods.

End AutoTOON.

(** The request [process] hands to the LLM function, given the request that
    came out of pre-processing. *)
Definition sentRequest (self : AutoTOON.t) (toonRequest : ProcessedRequest)
  : ProcessedRequest :=
  if isTrue (addInstructions (AutoTOON.config self)) && toonProcessed toonRequest
  then withSystemPrompt (AutoTOON.addTOONInstructions (pr_systemPrompt toonRequest))
                        toonRequest
  else toonRequest.

(** What [process] writes to the console before calling the LLM function. *)
Definition loggedMetrics {host : Host} (self : AutoTOON.t) (toonRequest : ProcessedRequest)
  : list HookEvent :=
  match metrics toonRequest with
  | Some m =>
      if isTrue (logMetrics (AutoTOON.config self))
      then [Console_log (AutoTOON.metricsLine m)]
      else []
  | None => []
  end.

(** [[{}, {}, ...]]: [n + 1] records without any field. *)
Definition emptyRecords (n : nat) : Value := VArr (repeat (VObj []) (S n)).

(** ** Sample hook inputs *)

(** [{minTabularPercent: 0, maxNestedDepth: 0}] *)
Definition zeroThresholds : TOONHookConfig :=
  mkTOONHookConfig None (Some (Fin 0)) (Some (Fin 0)) None.

(** An LLM function that answers every request with [jsonLookalike]. *)
Definition echoJSON (request : ProcessedRequest) : outcome LLMResponse :=
  Returned (mkLLMResponse jsonLookalike).

(** An LLM function that answers every request with plain prose. *)
Definition answerProse (request : ProcessedRequest) : outcome LLMResponse :=
  Returned (mkLLMResponse (lit "Nothing unusual in these records.")).

(** An LLM function whose promise rejects. *)
Definition rejecting (request : ProcessedRequest) : outcome LLMResponse :=
  Thrown TypeError.


(* ------------------------------------------------------------------ *)
(** * Properties *)

(** ** Numbers *)








(** ** The decision *)





(** ** The analyzer *)

Lemma sameTallies_refl c : sameTallies c c.
Proof. repeat split. Qed.

Lemma sameTallies_trans c1 c2 c3 :
  sameTallies c1 c2 -> sameTallies c2 c3 -> sameTallies c1 c3.
Proof.
  unfold sameTallies. intros (A1 & A2 & A3 & A4) (B1 & B2 & B3 & B4).
  repeat split; congruence.
Qed.

Lemma sameTallies_visitDepth d c : sameTallies c (visitDepth d c).
Proof. repeat split. Qed.

Lemma sameTallies_fold {A} (step : Counters -> A -> Counters) (l : list A) :
  Forall (fun x => forall c, sameTallies c (step c x)) l ->
  forall c, sameTallies c (fold_left step l c).
Proof.
  induction 1 as [| x r Hx _ IH]; intros c; cbn.
  - apply sameTallies_refl.
  - eapply sameTallies_trans; [apply Hx | apply IH].
Qed.

Lemma traverse_noArrays (v : Value) :
  noArrays v = true -> forall depth c, sameTallies c (traverse v depth c).
Proof.
  induction v as [| | b | n | s | items IH | fields IH] using Value_ind;
    intros Hno depth c; try apply sameTallies_visitDepth.
  - discriminate.
  - cbn in Hno. cbn [traverse].
    eapply sameTallies_trans; [apply (sameTallies_visitDepth depth) |].
    apply sameTallies_fold.
    rewrite forallb_forall in Hno. rewrite Forall_forall in IH |- *.
    intros kv Hin c'. apply IH; auto.
Qed.

(** C7. A value with no array anywhere in its tree is analysed to
    [percentTabular = 0] and [uniformityScore = 1]. *)
Theorem C7_no_arrays_zero_tabular_full_uniformity :
  forall data : Value,
    noArrays data = true ->
    st_percentTabular (analyzeDataStructure data) = Fin 0
    /\ st_uniformityScore (analyzeDataStructure data) = Fin 1.
Proof.
  intros data Hno.
  destruct (traverse_noArrays data Hno 0 initialCounters) as (Ht & _ & _ & Hu).
  unfold analyzeDataStructure, assemble. cbn [st_percentTabular st_uniformityScore].
  rewrite Ht, Hu. cbn. split; reflexivity.
Qed.

Lemma C7_witness :
  noArrays deeplyNested = true
  /\ st_percentTabular (analyzeDataStructure deeplyNested) = Fin 0
  /\ st_uniformityScore (analyzeDataStructure deeplyNested) = Fin 1.
Proof.
  split; [reflexivity |].
  apply (C7_no_arrays_zero_tabular_full_uniformity deeplyNested). reflexivity.
Defined.

(** C3. For [{level1:{level2:{level3:{level4:{deep:"value"}}}}}] the
    analyzer reports [percentTabular = 0] and [nestedDepth = 5] (the root is
    depth 0 and the string under [deep] is visited at depth 5), and the
    decision under the default thresholds is [shouldUseTOON = false]. *)
Theorem C3_deeply_nested_scenario :
  forall host : Host,
    st_percentTabular (analyzeDataStructure deeplyNested) = Fin 0
    /\ st_nestedDepth (analyzeDataStructure deeplyNested) = 5%nat
    /\ percentTabular (analyzeEligibility deeplyNested) = Fin 0
    /\ nestedDepth (analyzeEligibility deeplyNested) = 5%nat
    /\ shouldUseTOON (analyzeEligibility deeplyNested) = false.
Proof. intros host. repeat split; reflexivity. Qed.

(** The depth claimed for that input, 4, is not the one computed. *)
Lemma C3_counterexample :
  ~ (st_percentTabular (analyzeDataStructure deeplyNested) = Fin 0
     /\ st_nestedDepth (analyzeDataStructure deeplyNested) = 4%nat
     /\ thresholdsMet DEFAULT_CONFIG (analyzeDataStructure deeplyNested) = false).
Proof. intros (_ & H & _). vm_compute in H. discriminate. Qed.

(** ** Tabular candidates *)

Lemma jsstring_eqb_eq (a b : jsstring) : jsstring_eqb a b = true <-> a = b.
Proof.
  unfold jsstring_eqb. destruct (jsstring_eq_dec a b); split; congruence.
Qed.

Lemma Set_has_spec (keys : list jsstring) (k : jsstring) :
  Set_has (Set_of keys) k = true <-> In k keys.
Proof.
  unfold Set_has, Set_of. rewrite existsb_exists. split.
  - intros (x & Hin & Heq). apply jsstring_eqb_eq in Heq. subst x.
    eapply nodup_In; eassumption.
  - intros Hin. exists k. split; [apply nodup_In; assumption |].
    apply jsstring_eqb_eq; reflexivity.
Qed.

Lemma hasProperty_spec (field : jsstring) (obj : Value) :
  hasProperty field obj = true <-> In field (Object_keys obj).
Proof.
  unfold hasProperty. rewrite existsb_exists. split.
  - intros (x & Hin & Heq). apply jsstring_eqb_eq in Heq. subst x. exact Hin.
  - intros Hin. exists field. split; [assumption | apply jsstring_eqb_eq; reflexivity].
Qed.

Lemma isUniformObjectArray_spec (arr : list Value) :
  arr <> [] ->
  forallb isPlainObject arr = true ->
  (isUniformObjectArray arr = true <-> Forall (sameKeysAs (first arr)) arr).
Proof.
  intros Hne Hobj. unfold isUniformObjectArray.
  destruct arr as [| x r]; [congruence |].
  cbn [List.length Nat.eqb]. rewrite Hobj. cbn [negb].
  rewrite forallb_forall, Forall_forall.
  split; intros H item Hin; specialize (H item Hin).
  - apply andb_true_iff in H. destruct H as [Hlen Hsub].
    apply Nat.eqb_eq in Hlen. split; [exact Hlen |].
    intros k Hk. rewrite forallb_forall in Hsub.
    apply Set_has_spec. apply Hsub. exact Hk.
  - destruct H as [Hlen Hsub]. apply andb_true_iff. split.
    + apply Nat.eqb_eq. exact Hlen.
    + apply forallb_forall. intros k Hk. apply Set_has_spec. apply Hsub. exact Hk.
Qed.

(** An element that passed the key test carries every reference field. *)
Lemma sameKeysAs_complete (ref item : Value) (field : jsstring) :
  sameKeysAs ref item ->
  NoDup (Object_keys item) ->
  In field (Object_keys ref) ->
  In field (Object_keys item).
Proof.
  intros [Hlen Hsub] Hnd Hin.
  assert (Hback : incl (Set_of (Object_keys ref)) (Object_keys item)).
  { apply NoDup_length_incl; [assumption | rewrite Hlen; apply Nat.le_refl |].
    intros k Hk. apply nodup_In. apply Hsub. exact Hk. }
  apply Hback. apply nodup_In. exact Hin.
Qed.

Lemma countFields_all (obj : Value) (fields : list jsstring) (n : nat) :
  Forall (fun field => hasProperty field obj = true) fields ->
  fold_left (fun presentFields field =>
               if hasProperty field obj then S presentFields else presentFields)
            fields n
  = (n + List.length fields)%nat.
Proof.
  intros H. revert n. induction H as [| f r Hf _ IH]; intros n; cbn.
  - lia.
  - rewrite Hf, IH. lia.
Qed.

Lemma countPresent_all (referenceFields : list jsstring) (arr : list Value) :
  Forall (fun obj =>
            Forall (fun field => hasProperty field obj = true) referenceFields) arr ->
  countPresent referenceFields arr
  = (List.length referenceFields * List.length arr)%nat.
Proof.
  unfold countPresent. intros H.
  enough (G : forall n,
             fold_left
               (fun presentFields obj =>
                  fold_left
                    (fun presentFields field =>
                       if hasProperty field obj then S presentFields else presentFields)
                    referenceFields presentFields)
               arr n
             = (n + List.length referenceFields * List.length arr)%nat)
    by (rewrite G; lia).
  induction H as [| obj r Hobj _ IH]; intros n; cbn [fold_left List.length].
  - lia.
  - rewrite countFields_all by assumption. rewrite IH. lia.
Qed.

Lemma Number_div_same (n : nat) :
  (0 < n)%nat -> (Number.of_nat n / Number.of_nat n)%js = Fin 1.
Proof.
  intros Hn. unfold Number.div, Number.of_nat.
  assert (Hnz : ~ (inject_Z (Z.of_nat n) == 0)%Q).
  { unfold Qeq; cbn. lia. }
  assert (Hz : Number.isZero (inject_Z (Z.of_nat n)) = false).
  { unfold Number.isZero. destruct (Qeq_bool _ 0) eqn:E; [| reflexivity].
    apply Qeq_bool_eq in E. contradiction. }
  rewrite Hz. f_equal.
  change 1%Q with (Qred 1). apply Qred_complete.
  unfold Qdiv. apply Qmult_inv_r. exact Hnz.
Qed.

Lemma calculateUniformity_candidate (arr : list Value) :
  arr <> [] ->
  Forall (sameKeysAs (first arr)) arr ->
  Forall (fun item => NoDup (Object_keys item)) arr ->
  Object_keys (first arr) <> [] ->
  calculateUniformity arr = Fin 1.
Proof.
  intros Hne Hsame Hnd Hkeys. unfold calculateUniformity.
  destruct arr as [| x r] eqn:Earr; [congruence |]. rewrite <- Earr in *.
  replace (Nat.eqb (List.length arr) 0) with false by (rewrite Earr; reflexivity).
  rewrite countPresent_all.
  - apply Number_div_same.
    destruct (Object_keys (first arr)); [congruence |].
    rewrite Earr. cbn. lia.
  - rewrite Forall_forall in Hsame, Hnd |- *. intros obj Hin.
    apply Forall_forall. intros field Hf. apply hasProperty_spec.
    eapply sameKeysAs_complete; eauto.
Qed.






(** ** The format sniff *)

Lemma matchHere_nil (s : jsstring) : matchHere [] s = true.
Proof. destruct s; reflexivity. Qed.

Lemma matchHere_sound (s : jsstring) :
  forall p, matchHere p s = true ->
            exists m rest, s = m ++ rest /\ Matches p m.
Proof.
  induction s as [| x r IH]; intros p H.
  - destruct p as [| [c | cls] p']; cbn in H; try discriminate.
    exists [], []. split; [reflexivity | constructor].
  - destruct p as [| [c | cls] p'].
    + exists [], (x :: r). split; [reflexivity | constructor].
    + cbn in H. apply andb_true_iff in H. destruct H as [Hx Hr].
      apply N.eqb_eq in Hx. subst x.
      destruct (IH _ Hr) as (m & rest & -> & Hm).
      exists (c :: m), rest. split; [reflexivity | constructor; assumption].
    + cbn [matchHere] in H. apply andb_true_iff in H. destruct H as [Hx Hr].
      apply orb_true_iff in Hr. destruct Hr as [Hmore | Hstop].
      * destruct (IH _ Hmore) as (m & rest & -> & Hm).
        inversion Hm as [| | cls' p0 run s' Hne Hall Hs']; subst.
        exists ((x :: run) ++ s'), rest. split.
        -- cbn. rewrite <- app_assoc. reflexivity.
        -- constructor; [discriminate | constructor; assumption | assumption].
      * destruct (IH _ Hstop) as (m & rest & -> & Hm).
        exists ([x] ++ m), rest. split; [reflexivity |].
        constructor; [discriminate | repeat constructor; assumption | assumption].
Qed.

Lemma matchHere_complete (p : list atom) (m : jsstring) :
  Matches p m -> forall rest, matchHere p (m ++ rest) = true.
Proof.
  induction 1 as [| c p s _ IH | cls p run s Hne Hall _ IH]; intros rest.
  - apply matchHere_nil.
  - cbn. rewrite N.eqb_refl. apply IH.
  - induction Hall as [| x run' Hx Hrest IHrun]; [congruence |].
    cbn [app matchHere]. rewrite Hx. cbn [andb].
    destruct run' as [| y run''].
    + cbn [app]. rewrite IH. apply orb_true_r.
    + rewrite IHrun by discriminate. reflexivity.
Qed.

Lemma RegExp_test_here (p : list atom) (s : jsstring) :
  matchHere p s = true -> RegExp_test p s = true.
Proof. intros H. destruct s; cbn [RegExp_test]; rewrite H; reflexivity. Qed.

(** [RegExp_test] decides whether the text contains a match. *)
Lemma RegExp_test_spec (p : list atom) (s : jsstring) :
  RegExp_test p s = true <-> Contains p s.
Proof.
  unfold Contains. split.
  - induction s as [| x r IH]; cbn [RegExp_test]; intros H;
      apply orb_true_iff in H; destruct H as [H | H]; try discriminate.
    + destruct (matchHere_sound _ _ H) as (m & rest & E & Hm).
      exists [], m, rest. split; assumption.
    + destruct (matchHere_sound _ _ H) as (m & rest & E & Hm).
      exists [], m, rest. split; assumption.
    + destruct (IH H) as (pre & m & post & -> & Hm).
      exists (x :: pre), m, post. split; [reflexivity | assumption].
  - intros (pre & m & post & -> & Hm).
    induction pre as [| x pre IH].
    + apply RegExp_test_here. exact (matchHere_complete Hm post).
    + cbn [app RegExp_test]. rewrite IH. apply orb_true_r.
Qed.

Lemma isTOONFormat_spec (text : jsstring) :
  isTOONFormat text = true <->
  Contains re_arrayLength text /\ Contains re_fieldList text.
Proof.
  unfold isTOONFormat. rewrite andb_true_iff, !RegExp_test_spec. reflexivity.
Qed.

Lemma isTOONFormat_false (text : jsstring) :
  ~ (Contains re_arrayLength text /\ Contains re_fieldList text) ->
  isTOONFormat text = false.
Proof.
  intros H. destruct (isTOONFormat text) eqn:E; [| reflexivity].
  apply isTOONFormat_spec in E. contradiction.
Qed.

(** The array-length marker is [[], one or more decimal digits, []]. *)
Lemma Matches_arrayLength (m : jsstring) :
  Matches re_arrayLength m <->
  exists digits, digits <> [] /\ Forall (fun c => isDigit c = true) digits
                 /\ m = [91%N] ++ digits ++ [93%N].
Proof.
  unfold re_arrayLength. split.
  - intros H. inversion H as [| c p s H1 |]; subst.
    inversion H1 as [| | cls p run s' Hne Hall H2]; subst.
    inversion H2 as [| c p s H3 |]; subst. inversion H3; subst.
    exists run. repeat split; assumption.
  - intros (digits & Hne & Hall & ->).
    cbn [app]. constructor. constructor; try assumption. repeat constructor.
Qed.

(** The field list is [{], one or more code units other than [}], [}]. *)
Lemma Matches_fieldList (m : jsstring) :
  Matches re_fieldList m <->
  exists body, body <> [] /\ Forall (fun c => c <> 125%N) body
               /\ m = [123%N] ++ body ++ [125%N].
Proof.
  unfold re_fieldList. split.
  - intros H. inversion H as [| c p s H1 |]; subst.
    inversion H1 as [| | cls p run s' Hne Hall H2]; subst.
    inversion H2 as [| c p s H3 |]; subst. inversion H3; subst.
    exists run. repeat split; try assumption.
    eapply Forall_impl; [| exact Hall]. cbn. intros c Hc.
    apply negb_true_iff in Hc. apply N.eqb_neq. exact Hc.
  - intros (body & Hne & Hall & ->).
    cbn [app]. constructor. constructor; try assumption; [| repeat constructor].
    eapply Forall_impl; [| exact Hall]. cbn. intros c Hc.
    apply negb_true_iff. apply N.eqb_neq. exact Hc.
Qed.

(** ** Post-processing *)

Lemma postProcess_same {host : Host} (self : TOONProcessor.t) (response : LLMResponse) :
  TOONProcessor.postProcess self response = postProcessResponse response.
Proof. reflexivity. Qed.

Lemma postProcessResponse_rejected {host : Host} (response : LLMResponse) :
  isTOONFormat (trim (content response)) = false ->
  postProcessResponse response = ([], Returned sniffRejected).
Proof.
  intros H. unfold postProcessResponse.
  destruct (content response) as [| x r]; [reflexivity |].
  rewrite H. reflexivity.
Qed.

Lemma postProcessResponse_fallback {host : Host} (response : LLMResponse) (e : Exn) :
  isTOONFormat (trim (content response)) = true ->
  toonDecode (trim (content response)) = Thrown e ->
  postProcessResponse response
  = ([Call_decodeFromTOON (trim (content response));
      Call_JSON_parse (content response)],
     Returned match JSON_parse (content response) with
              | Returned v => jsonFallback v
              | Thrown _ => bothFailed
              end).
Proof.
  intros Hsniff Hdec. unfold postProcessResponse.
  destruct (content response) as [| x r] eqn:Ec.
  - vm_compute in Hsniff. discriminate.
  - rewrite Hsniff. cbn [negb]. unfold decodeFromTOON, invoke, bind, tryCatch.
    rewrite Hdec. destruct (JSON_parse (x :: r)); reflexivity.
Qed.

(** C4. When the trimmed content does not contain both an array-length
    marker and a brace-delimited field list, [postProcessResponse] and
    [TOONProcessor.postProcess] return [{success:false, format:'none'}]
    having called neither the decoder nor [JSON.parse]; this holds for
    every content, the empty one included. *)
Theorem C4_unsniffed_content_is_not_decoded :
  forall (host : Host) (response : LLMResponse),
    ~ (Contains re_arrayLength (trim (content response))
       /\ Contains re_fieldList (trim (content response))) ->
    postProcessResponse response = ([], Returned sniffRejected)
    /\ (forall self : TOONProcessor.t,
           TOONProcessor.postProcess self response = ([], Returned sniffRejected)).
Proof.
  intros host response Hsniff.
  apply isTOONFormat_false in Hsniff.
  split; [| intros self; rewrite postProcess_same];
    apply postProcessResponse_rejected; exact Hsniff.
Qed.

Lemma C4_witness :
  let response := mkLLMResponse (lit "plain prose, no markers") in
  @postProcessResponse sampleHost response = ([], Returned sniffRejected)
  /\ (forall self : TOONProcessor.t,
         @TOONProcessor.postProcess sampleHost self response
         = ([], Returned sniffRejected)).
Proof.
  intros response.
  apply (@C4_unsniffed_content_is_not_decoded sampleHost response).
  intros H. apply isTOONFormat_spec in H. vm_compute in H. discriminate.
Defined.

(** C5. When the trimmed content passes the sniff and the decoder throws on
    it, [JSON.parse] is called on the original, untrimmed content; the
    result is [{parsed, success:true, format:'json', error:'TOON decode
    failed, fell back to JSON'}] if that parse returns and [{success:false,
    format:'none', error:'Both formats failed'}] if it throws. In both cases
    the call returns. *)
Theorem C5_decode_failure_falls_back_to_JSON :
  forall (host : Host) (response : LLMResponse) (e : Exn),
    Contains re_arrayLength (trim (content response)) ->
    Contains re_fieldList (trim (content response)) ->
    toonDecode (trim (content response)) = Thrown e ->
    postProcessResponse response
    = ([Call_decodeFromTOON (trim (content response));
        Call_JSON_parse (content response)],
       Returned match JSON_parse (content response) with
                | Returned v => jsonFallback v
                | Thrown _ => bothFailed
                end)
    /\ (forall self : TOONProcessor.t,
           TOONProcessor.postProcess self response = postProcessResponse response).
Proof.
  intros host response e H1 H2 Hdec. split.
  - apply postProcessResponse_fallback with (e := e); [| exact Hdec].
    apply isTOONFormat_spec. split; assumption.
  - intros self. apply postProcess_same.
Qed.

Lemma C5_witness :
  let response := mkLLMResponse (lit " " ++ jsonLookalike) in
  @postProcessResponse sampleHost response
  = ([Call_decodeFromTOON jsonLookalike; Call_JSON_parse (lit " " ++ jsonLookalike)],
     Returned (jsonFallback (VObj [(lit "a", VArr [int 1])])))
  /\ (forall self : TOONProcessor.t,
         @TOONProcessor.postProcess sampleHost self response
         = @postProcessResponse sampleHost response).
Proof.
  intros response.
  assert (Hsniff : isTOONFormat (trim (content response)) = true) by reflexivity.
  apply isTOONFormat_spec in Hsniff. destruct Hsniff as [H1 H2].
  exact (@C5_decode_failure_falls_back_to_JSON sampleHost response CodecError
           H1 H2 eq_refl).
Defined.

(** ** Pre-processing *)

Lemma truthy_spec (v : Value) : truthy v = false <-> Falsy v.
Proof.
  split.
  - destruct v as [| | [|] | [| | |q] | [|x s] | items | fields]; cbn;
      try discriminate; intros H; try constructor.
    apply negb_false_iff in H. apply Qeq_bool_eq. exact H.
  - intros H. destruct H as [| | | q Hq | |]; cbn; try reflexivity.
    apply negb_false_iff. apply Qeq_bool_iff. exact Hq.
Qed.

Lemma preProcess_same {host : Host} (self : TOONProcessor.t) (request : LLMRequest) :
  TOONProcessor.preProcess self request = preProcessRequest request.
Proof. reflexivity. Qed.

(** C10. A request whose [data] is falsy ([undefined], [null], [false], [0],
    [NaN] or [""]) comes back unchanged with [toonProcessed = false] and
    the report [{percentTabular:0, nestedDepth:0, uniformityScore:0,
    shouldUseTOON:false, reason:'no data'}]; no call to the analyzer, the
    estimator or the codec is made. *)
Theorem C10_falsy_data_short_circuits :
  forall (host : Host) (request : LLMRequest),
    Falsy (data request) ->
    preProcessRequest request
    = ([], Returned
             (mkPreProcessResult
                (mkProcessedRequest (systemPrompt request) (userMessage request)
                                    (data request) false None)
                (mkEligibilityAnalysis (Fin 0) 0 (Fin 0) false (lit "no data"))))
    /\ (forall self : TOONProcessor.t,
           TOONProcessor.preProcess self request = preProcessRequest request).
Proof.
  intros host request Hfalsy. apply truthy_spec in Hfalsy. split.
  - unfold preProcessRequest. rewrite Hfalsy. reflexivity.
  - intros self. apply preProcess_same.
Qed.

Lemma C10_witness :
  let request := mkLLMRequest (lit "Test prompt") (lit "Analyze this") (int 0) in
  @preProcessRequest sampleHost request
  = ([], Returned
           (mkPreProcessResult
              (mkProcessedRequest (lit "Test prompt") (lit "Analyze this")
                                  (int 0) false None)
              (mkEligibilityAnalysis (Fin 0) 0 (Fin 0) false (lit "no data"))))
  /\ (forall self : TOONProcessor.t,
         @TOONProcessor.preProcess sampleHost self request
         = @preProcessRequest sampleHost request).
Proof.
  intros request.
  apply (@C10_falsy_data_short_circuits sampleHost request).
  apply Falsy_zero. reflexivity.
Defined.

(** C2. [TOONProcessor.preProcess] does not read the configuration held by
    the processor: it is [preProcessRequest] whatever the processor was
    built with. With thresholds [0 / 10 / 0] and the data
    [{deep:{nested:{value:"test"}}}], the processor's own thresholds are
    met, yet the request comes back unprocessed with a negative report. *)
Theorem C2_processor_config_is_not_consulted :
  forall host : Host,
    (forall (config : option PartialTOONConfig) (request : LLMRequest),
        TOONProcessor.preProcess (TOONProcessor.new config) request
        = preProcessRequest request)
    /\ thresholdsMet (TOONProcessor.getConfig (TOONProcessor.new (Some lenient)))
                     (analyzeDataStructure nestedOnly) = true
    /\ exists r : PreProcessResult,
        TOONProcessor.preProcess (TOONProcessor.new (Some lenient))
                                 (mkLLMRequest [] [] nestedOnly)
        = ([Call_analyzeEligibility nestedOnly], Returned r)
        /\ shouldUseTOON (pre_eligibility r) = false
        /\ toonProcessed (pre_request r) = false.
Proof.
  intros host. split; [intros; apply preProcess_same |].
  split; [reflexivity |].
  eexists. split; [reflexivity |]. split; reflexivity.
Qed.

(** ** Token estimate *)

Lemma countTokens_bounds (text : jsstring) :
  (4 * (countTokens text - 1) < str_length text <= 4 * countTokens text)%Z.
Proof.
  unfold countTokens.
  pose proof (Qle_ceiling (inject_Z (str_length text) / 4)) as Hup.
  pose proof (Qceiling_lt (inject_Z (str_length text) / 4)) as Hlow.
  remember (Qceiling (inject_Z (str_length text) / 4)) as n eqn:En. clear En.
  unfold Qle, Qlt, Qdiv, Qmult, Qinv, inject_Z in Hup, Hlow.
  cbn in Hup, Hlow. lia.
Qed.

Lemma countTokens_nonneg (text : jsstring) : (0 <= countTokens text)%Z.
Proof.
  pose proof (countTokens_bounds text) as H. unfold str_length in H. lia.
Qed.

Lemma percent_of (s o : Z) :
  (0 < o)%Z ->
  (Number.of_Z s / Number.of_Z o * Fin 100)%js
  = Fin (Qred (100 * inject_Z s / inject_Z o)).
Proof.
  intros Ho. unfold Number.of_Z, Number.div.
  assert (Hnz : ~ (inject_Z o == 0)%Q) by (unfold Qeq; cbn; lia).
  assert (Hz : Number.isZero (inject_Z o) = false).
  { unfold Number.isZero. destruct (Qeq_bool _ 0) eqn:E; [| reflexivity].
    apply Qeq_bool_eq in E. contradiction. }
  rewrite Hz. unfold Number.mul. f_equal. apply Qred_complete.
  rewrite Qred_correct. unfold Qdiv. ring.
Qed.



(** A decoder call is only ever made on trimmed content that passed the
    sniff. *)
Lemma decode_attempt_implies_sniff {host : Host} (response : LLMResponse)
      (text : jsstring) :
  In (Call_decodeFromTOON text) (trace (postProcessResponse response)) ->
  text = trim (content response)
  /\ Contains re_arrayLength (trim (content response))
  /\ Contains re_fieldList (trim (content response)).
Proof.
  intros Hin.
  destruct (isTOONFormat (trim (content response))) eqn:Hsniff.
  - apply isTOONFormat_spec in Hsniff. split; [| exact Hsniff].
    unfold postProcessResponse in Hin.
    destruct (content response) as [| x r] eqn:Ec; [destruct Hin |].
    remember (trim (x :: r)) as trimmed eqn:Et. clear Et.
    destruct (isTOONFormat trimmed); [| destruct Hin].
    cbn [negb] in Hin.
    unfold decodeFromTOON, invoke, bind, tryCatch, trace in Hin.
    destruct (toonDecode trimmed).
    + cbn in Hin. destruct Hin as [E | []]. congruence.
    + destruct (JSON_parse (x :: r)); cbn in Hin;
        destruct Hin as [E | [E | []]]; congruence.
  - rewrite (postProcessResponse_rejected response Hsniff) in Hin. destruct Hin.
Qed.

(** ** Sample runs *)

(** [{users:[{id:1,name:"Alice"},{id:2,name:"Bob"}]}] is fully tabular and
    uniform, three levels deep, and eligible under the default thresholds. *)
Example tabular_users_analysis :
  analyzeDataStructure (VObj [(lit "users", VArr twoUsers)])
  = mkStats (Fin 100) 3 (Fin 1)
  /\ thresholdsMet DEFAULT_CONFIG
       (analyzeDataStructure (VObj [(lit "users", VArr twoUsers)])) = true.
Proof. split; reflexivity. Qed.

(** Pre-processing it analyses, estimates (one stringify, one encode) and
    encodes, in that order, and replaces [data] by the encoded text. *)
Example tabular_users_preProcess :
  let users := VObj [(lit "users", VArr twoUsers)] in
  exists r,
    @preProcessRequest sampleHost (mkLLMRequest [] [] users)
    = ([Call_analyzeEligibility users; Call_calculateTokenSavings users;
        Call_JSON_stringify users; Call_encodeToTOON users;
        Call_encodeToTOON users],
       Returned r)
    /\ toonProcessed (pre_request r) = true
    /\ pr_data (pre_request r) = VStr (lit "rows[1]{a}: 1").
Proof. eexists. repeat split. Qed.

(** An array whose only element has no key is a candidate whose presence
    ratio is [0 / 0]. *)
Example keyless_record_uniformity :
  isUniformObjectArray [VObj []] = true
  /\ calculateUniformity [VObj []] = NaN.
Proof. split; reflexivity. Qed.

(* ------------------------------------------------------------------ *)
(** * Further properties *)

(** ** What the traversal computes *)

Lemma maxDepth_fold {A} (step : Counters -> A -> Counters) (measure : A -> nat)
      (l : list A) :
  Forall (fun x => forall c, maxDepth (step c x) = Nat.max (maxDepth c) (measure x)) l ->
  forall c, maxDepth (fold_left step l c)
            = Nat.max (maxDepth c) (list_max (map measure l)).
Proof.
  induction 1 as [| x r Hx _ IH]; intros c; cbn [fold_left map list_max fold_right].
  - lia.
  - rewrite IH, Hx. fold (list_max (map measure r)). lia.
Qed.

Lemma list_max_shift {A} (f : A -> nat) (d : nat) (l : list A) :
  l <> [] ->
  list_max (map (fun x => (S d + f x)%nat) l)
  = (d + list_max (map (fun x => S (f x)) l))%nat.
Proof.
  intros Hne. induction l as [| x r IH]; [congruence |].
  destruct r as [| y r'].
  - cbn. lia.
  - cbn [map list_max fold_right] in *. rewrite IH by discriminate. lia.
Qed.

Lemma traverse_maxDepth (v : Value) :
  forall depth c,
    maxDepth (traverse v depth c) = Nat.max (maxDepth c) (depth + height v).
Proof.
  induction v as [| | b | n | s | items IH | fields IH] using Value_ind;
    intros depth c; try (cbn; lia).
  - cbn [traverse height].
    rewrite (maxDepth_fold (fun c item => traverse item (S depth) c)
                           (fun item => (S depth + height item)%nat)).
    + destruct items as [| x r].
      * destruct (Nat.ltb 0 (List.length (@nil Value)) && isUniformObjectArray []);
          cbn; lia.
      * rewrite list_max_shift by discriminate.
        destruct (Nat.ltb 0 (List.length (x :: r)) && isUniformObjectArray (x :: r));
          cbn [maxDepth countTabular countArray visitDepth]; lia.
    + eapply Forall_impl; [| exact IH]. cbn. intros item Hitem c'. apply Hitem.
  - cbn [traverse height].
    rewrite (maxDepth_fold (fun c kv => traverse (snd kv) (S depth) c)
                           (fun kv => (S depth + height (snd kv))%nat)).
    + destruct fields as [| x r].
      * cbn; lia.
      * rewrite (list_max_shift (fun kv => height (snd kv))) by discriminate.
        cbn [maxDepth visitDepth]; lia.
    + eapply Forall_impl; [| exact IH]. cbn. intros kv Hkv c'. apply Hkv.
Qed.

(** X1. The reported [nestedDepth] is the height of the value tree: the
    number of steps from the root down to the deepest node, scalar leaves
    counting as nodes. *)
Theorem nestedDepth_is_height :
  forall data : Value, st_nestedDepth (analyzeDataStructure data) = height data.
Proof.
  intros data. unfold analyzeDataStructure, assemble. cbn [st_nestedDepth].
  rewrite traverse_maxDepth. cbn. lia.
Qed.

Lemma tally_fold {A} (field : Counters -> nat) (step : Counters -> A -> Counters)
      (measure : A -> nat) (l : list A) :
  Forall (fun x => forall c, field (step c x) = (field c + measure x)%nat) l ->
  forall c, field (fold_left step l c) = (field c + list_sum (map measure l))%nat.
Proof.
  induction 1 as [| x r Hx _ IH]; intros c; cbn [fold_left map list_sum fold_right].
  - lia.
  - rewrite IH, Hx. fold (list_sum (map measure r)). lia.
Qed.

Lemma candidate_test (items : list Value) :
  Nat.ltb 0 (List.length items) && isUniformObjectArray items
  = isUniformObjectArray items.
Proof. destruct items; reflexivity. Qed.

Lemma traverse_totalArrays (v : Value) :
  forall depth c,
    totalArrays (traverse v depth c) = (totalArrays c + countArrays v)%nat.
Proof.
  induction v as [| | b | n | s | items IH | fields IH] using Value_ind;
    intros depth c; try (cbn; lia).
  - cbn [traverse countArrays].
    rewrite (tally_fold totalArrays (fun c item => traverse item (S depth) c)
                        countArrays).
    + destruct (Nat.ltb 0 (List.length items) && isUniformObjectArray items);
        cbn; lia.
    + eapply Forall_impl; [| exact IH]. cbn. intros item Hitem c'. apply Hitem.
  - cbn [traverse countArrays].
    rewrite (tally_fold totalArrays (fun c kv => traverse (snd kv) (S depth) c)
                        (fun kv => countArrays (snd kv))).
    + cbn; lia.
    + eapply Forall_impl; [| exact IH]. cbn. intros kv Hkv c'. apply Hkv.
Qed.

Lemma traverse_tabularArrays (v : Value) :
  forall depth c,
    tabularArrays (traverse v depth c) = (tabularArrays c + countCandidates v)%nat.
Proof.
  induction v as [| | b | n | s | items IH | fields IH] using Value_ind;
    intros depth c; try (cbn; lia).
  - cbn [traverse countCandidates]. rewrite candidate_test.
    rewrite (tally_fold tabularArrays (fun c item => traverse item (S depth) c)
                        countCandidates).
    + destruct (isUniformObjectArray items); cbn; lia.
    + eapply Forall_impl; [| exact IH]. cbn. intros item Hitem c'. apply Hitem.
  - cbn [traverse countCandidates].
    rewrite (tally_fold tabularArrays (fun c kv => traverse (snd kv) (S depth) c)
                        (fun kv => countCandidates (snd kv))).
    + cbn; lia.
    + eapply Forall_impl; [| exact IH]. cbn. intros kv Hkv c'. apply Hkv.
Qed.

Lemma traverse_uniformityCount (v : Value) :
  forall depth c,
    uniformityCount (traverse v depth c) = (uniformityCount c + countCandidates v)%nat.
Proof.
  induction v as [| | b | n | s | items IH | fields IH] using Value_ind;
    intros depth c; try (cbn; lia).
  - cbn [traverse countCandidates]. rewrite candidate_test.
    rewrite (tally_fold uniformityCount (fun c item => traverse item (S depth) c)
                        countCandidates).
    + destruct (isUniformObjectArray items); cbn; lia.
    + eapply Forall_impl; [| exact IH]. cbn. intros item Hitem c'. apply Hitem.
  - cbn [traverse countCandidates].
    rewrite (tally_fold uniformityCount (fun c kv => traverse (snd kv) (S depth) c)
                        (fun kv => countCandidates (snd kv))).
    + cbn; lia.
    + eapply Forall_impl; [| exact IH]. cbn. intros kv Hkv c'. apply Hkv.
Qed.

Lemma list_sum_le {A} (f g : A -> nat) (l : list A) :
  Forall (fun x => (f x <= g x)%nat) l ->
  (list_sum (map f l) <= list_sum (map g l))%nat.
Proof.
  unfold list_sum. induction 1 as [| x r Hx _ IH]; cbn [map fold_right] in *; lia.
Qed.

Lemma countCandidates_le (v : Value) : (countCandidates v <= countArrays v)%nat.
Proof.
  induction v as [| | b | n | s | items IH | fields IH] using Value_ind;
    try (cbn; lia).
  - cbn [countCandidates countArrays].
    pose proof (list_sum_le countCandidates countArrays IH) as H.
    destruct (isUniformObjectArray items); lia.
  - cbn [countCandidates countArrays].
    exact (list_sum_le (fun kv => countCandidates (snd kv))
                       (fun kv => countArrays (snd kv)) IH).
Qed.

Lemma percentTabular_formula :
  forall data : Value,
    st_percentTabular (analyzeDataStructure data)
    = if Nat.eqb (countArrays data) 0 then Fin 0
      else Fin (Qred (100 * inject_Z (Z.of_nat (countCandidates data))
                      / inject_Z (Z.of_nat (countArrays data)))).
Proof.
  intros data. unfold analyzeDataStructure, assemble. cbn [st_percentTabular].
  rewrite traverse_totalArrays, traverse_tabularArrays. cbn [totalArrays tabularArrays initialCounters Nat.add].
  destruct (countArrays data) as [| n] eqn:En; [reflexivity |].
  cbn [Nat.ltb Nat.leb Nat.eqb].
  apply (@percent_of (Z.of_nat (countCandidates data)) (Z.of_nat (S n))). lia.
Qed.


(** X3. [percentTabular] is always a finite number between 0 and 100. *)
Theorem percentTabular_in_range :
  forall data : Value,
    exists q : Q,
      st_percentTabular (analyzeDataStructure data) = Fin q
      /\ (0 <= q)%Q /\ (q <= 100)%Q.
Proof.
  intros data. rewrite percentTabular_formula.
  pose proof (countCandidates_le data) as Hle.
  destruct (Nat.eqb (countArrays data) 0) eqn:E.
  - exists 0%Q. repeat split; unfold Qle; cbn; lia.
  - apply Nat.eqb_neq in E. eexists. split; [reflexivity |].
    rewrite Qred_correct.
    set (t := Z.of_nat (countCandidates data)).
    set (n := Z.of_nat (countArrays data)).
    assert (Hn : (0 < n)%Z) by (unfold n; lia).
    assert (Ht : (0 <= t <= n)%Z) by (unfold t, n; lia).
    clearbody t n. split.
    + apply Qle_shift_div_l; [unfold Qlt; cbn; lia |].
      unfold Qle, Qmult, inject_Z; cbn [Qnum Qden]. nia.
    + apply Qle_shift_div_r; [unfold Qlt; cbn; lia |].
      unfold Qle, Qmult, inject_Z; cbn [Qnum Qden]. nia.
Qed.

(** ** Uniformity *)

Lemma Qred_inject_Z (z : Z) : Qred (inject_Z z) = inject_Z z.
Proof. apply Qcanon.Qred_identity. cbn. apply Z.gcd_1_r. Qed.

Lemma Number_add_one (n : nat) :
  (Number.of_nat n + Fin 1)%js = Number.of_nat (S n).
Proof.
  unfold Number.add, Number.of_nat. f_equal.
  rewrite <- (Qred_inject_Z (Z.of_nat (S n))). apply Qred_complete.
  unfold Qeq, Qplus, inject_Z; cbn [Qnum Qden]. lia.
Qed.

Lemma countPresent_no_fields (arr : list Value) : countPresent [] arr = 0%nat.
Proof.
  unfold countPresent. induction arr as [| x r IH]; [reflexivity | exact IH].
Qed.

Lemma calculateUniformity_keyless (arr : list Value) :
  arr <> [] -> Object_keys (first arr) = [] -> calculateUniformity arr = NaN.
Proof.
  intros Hne Hk. unfold calculateUniformity. rewrite Hk, countPresent_no_fields.
  destruct arr; [congruence | reflexivity].
Qed.

Lemma isUniformObjectArray_inv (arr : list Value) :
  isUniformObjectArray arr = true ->
  arr <> [] /\ forallb isPlainObject arr = true.
Proof.
  unfold isUniformObjectArray. destruct arr as [| x r]; [discriminate |].
  cbn [List.length Nat.eqb]. intros H. split; [discriminate |].
  destruct (forallb isPlainObject (x :: r)); [reflexivity | discriminate].
Qed.

Lemma distinctKeys_items (items : list Value) :
  fold_right (fun item rest => distinctKeys item /\ rest) True items ->
  Forall distinctKeys items.
Proof.
  induction items as [| x r IH]; cbn; intros H; constructor; tauto.
Qed.

Lemma distinctKeys_fields (fields : list (jsstring * Value)) :
  fold_right (fun kv rest => distinctKeys (snd kv) /\ rest) True fields ->
  Forall (fun kv => distinctKeys (snd kv)) fields.
Proof.
  induction fields as [| x r IH]; cbn; intros H; constructor; tauto.
Qed.

Lemma distinctKeys_NoDup (item : Value) :
  distinctKeys item -> NoDup (Object_keys item).
Proof.
  destruct item; cbn; try (intros _; constructor). intros [H _]. exact H.
Qed.

Lemma candidate_uniformity (arr : list Value) :
  isUniformObjectArray arr = true ->
  Forall distinctKeys arr ->
  calculateUniformity arr = Fin 1 \/ calculateUniformity arr = NaN.
Proof.
  intros Hacc Hwf. destruct (isUniformObjectArray_inv arr Hacc) as [Hne Hobj].
  destruct (Object_keys (first arr)) as [| k ks] eqn:Hk.
  - right. apply calculateUniformity_keyless; assumption.
  - left. apply calculateUniformity_candidate.
    + exact Hne.
    + apply (isUniformObjectArray_spec Hne Hobj). exact Hacc.
    + eapply Forall_impl; [| exact Hwf]. intros item. apply distinctKeys_NoDup.
    + rewrite Hk. discriminate.
Qed.

Lemma sumTracksCount_countTabular (u : number) (c : Counters) :
  u = Fin 1 \/ u = NaN -> sumTracksCount c -> sumTracksCount (countTabular u c).
Proof.
  unfold sumTracksCount. intros [-> | ->] [H | H]; cbn; rewrite H.
  - left. reflexivity.
  - right. apply Number_add_one.
  - left. reflexivity.
  - left. reflexivity.
Qed.

Lemma fold_preserves {A} (P : Counters -> Prop) (step : Counters -> A -> Counters)
      (l : list A) :
  Forall (fun x => forall c, P c -> P (step c x)) l ->
  forall c, P c -> P (fold_left step l c).
Proof.
  induction 1 as [| x r Hx _ IH]; intros c Hc; cbn; [exact Hc |].
  apply IH. apply Hx. exact Hc.
Qed.

Lemma traverse_sumTracksCount (v : Value) :
  distinctKeys v ->
  forall depth c, sumTracksCount c -> sumTracksCount (traverse v depth c).
Proof.
  induction v as [| | b | n | s | items IH | fields IH] using Value_ind;
    intros Hwf depth c Hc; try exact Hc.
  - cbn [traverse]. cbn [distinctKeys] in Hwf. apply distinctKeys_items in Hwf.
    apply fold_preserves.
    + rewrite Forall_forall in IH, Hwf |- *. intros item Hin c' Hc'.
      apply IH; auto.
    + rewrite candidate_test.
      destruct (isUniformObjectArray items) eqn:Hacc; [| exact Hc].
      apply sumTracksCount_countTabular; [| exact Hc].
      apply candidate_uniformity; assumption.
  - cbn [traverse]. cbn [distinctKeys] in Hwf. destruct Hwf as [_ Hwf].
    apply distinctKeys_fields in Hwf.
    apply fold_preserves; [| exact Hc].
    rewrite Forall_forall in IH, Hwf |- *. intros kv Hin c' Hc'.
    apply IH; auto.
Qed.

(** X4. The uniformity score of any value is 1 or [NaN], never a fraction:
    an array is only scored after all its elements were found to have the
    first element's keys. So the score is never below the default minimum
    of 0.8. *)
Theorem uniformityScore_is_one_or_NaN :
  forall data : Value,
    distinctKeys data ->
    (st_uniformityScore (analyzeDataStructure data) = Fin 1
     \/ st_uniformityScore (analyzeDataStructure data) = NaN)
    /\ (st_uniformityScore (analyzeDataStructure data)
        <? minUniformityScore (eligibility DEFAULT_CONFIG))%js = false.
Proof.
  intros data Hwf.
  assert (H : st_uniformityScore (analyzeDataStructure data) = Fin 1
              \/ st_uniformityScore (analyzeDataStructure data) = NaN).
  { unfold analyzeDataStructure, assemble. cbn [st_uniformityScore].
    assert (Hinv : sumTracksCount (traverse data 0 initialCounters)).
    { apply traverse_sumTracksCount; [exact Hwf |]. right. reflexivity. }
    destruct (uniformityCount (traverse data 0 initialCounters)) as [| n] eqn:En.
    - left. reflexivity.
    - cbn [Nat.ltb Nat.leb]. destruct Hinv as [Hs | Hs]; rewrite Hs.
      + right. reflexivity.
      + left. rewrite En. apply Number_div_same. lia. }
  split; [exact H |]. destruct H as [-> | ->]; reflexivity.
Qed.

Ltac distinct_keys :=
  cbn; repeat split; repeat constructor; cbn; intuition discriminate.

Lemma uniformityScore_is_one_or_NaN_witness :
  distinctKeys usersTable
  /\ (st_uniformityScore (analyzeDataStructure usersTable) = Fin 1
      \/ st_uniformityScore (analyzeDataStructure usersTable) = NaN)
  /\ (st_uniformityScore (analyzeDataStructure usersTable)
      <? minUniformityScore (eligibility DEFAULT_CONFIG))%js = false.
Proof.
  assert (Hwf : distinctKeys usersTable) by distinct_keys.
  split; [exact Hwf |].
  exact (uniformityScore_is_one_or_NaN usersTable Hwf).
Defined.

(** ** Arrays that are, and are not, candidates *)

Lemma traverse_scalar (v : Value) (depth : nat) (c : Counters) :
  isScalar v = true -> traverse v depth c = visitDepth depth c.
Proof. destruct v; cbn; intros H; try reflexivity; discriminate. Qed.

Lemma scalars_not_candidate (arr : list Value) :
  Forall (fun item => isScalar item = true) arr -> isUniformObjectArray arr = false.
Proof.
  intros H. destruct H as [| x r Hx _]; [reflexivity |].
  unfold isUniformObjectArray. cbn [List.length Nat.eqb forallb].
  destruct x; cbn in Hx; try discriminate; reflexivity.
Qed.

Lemma fold_scalars (arr : list Value) (c : Counters) :
  Forall (fun item => isScalar item = true) arr ->
  fold_left (fun c item => traverse item 1 c) arr c
  = match arr with [] => c | _ => visitDepth 1 c end.
Proof.
  intros H. revert c. induction H as [| x r Hx Hr IH]; intros c; [reflexivity |].
  cbn [fold_left]. rewrite traverse_scalar by exact Hx. rewrite IH.
  destruct r; [reflexivity |].
  unfold visitDepth; cbn. f_equal. lia.
Qed.

(** X5. An array of scalars, however long, is analysed as one array that
    is not tabular: [percentTabular = 0], the default [uniformityScore = 1],
    and depth 1 (0 when the array is empty). *)
Theorem scalar_array_is_not_tabular :
  forall arr : list Value,
    Forall (fun item => isScalar item = true) arr ->
    analyzeDataStructure (VArr arr)
    = mkStats (Fin 0) (match arr with [] => 0 | _ => 1 end) (Fin 1).
Proof.
  intros arr H. unfold analyzeDataStructure. cbn [traverse].
  rewrite (scalars_not_candidate H), andb_false_r.
  rewrite (fold_scalars _ H). destruct arr; reflexivity.
Qed.

Lemma scalar_array_is_not_tabular_witness :
  analyzeDataStructure (VArr [int 1; str "two"; VNull; VBool true])
  = mkStats (Fin 0) 1 (Fin 1).
Proof.
  apply (scalar_array_is_not_tabular (arr := [int 1; str "two"; VNull; VBool true])).
  repeat constructor.
Defined.

(** X6. Property order does not matter to the candidate test: a non-empty
    array of plain objects whose keys are each a rearrangement of the first
    element's keys is a candidate, and its presence ratio is 1 ([NaN] when
    the objects have no keys at all). *)
Theorem same_keys_any_order_is_candidate :
  forall arr : list Value,
    arr <> [] ->
    NoDup (Object_keys (first arr)) ->
    Forall (fun item => isPlainObject item = true
                        /\ Permutation (Object_keys (first arr)) (Object_keys item))
           arr ->
    isUniformObjectArray arr = true
    /\ calculateUniformity arr
       = match Object_keys (first arr) with [] => NaN | _ => Fin 1 end.
Proof.
  intros arr Hne Hnd Hall.
  assert (Hobj : forallb isPlainObject arr = true).
  { apply forallb_forall. rewrite Forall_forall in Hall.
    intros item Hin. apply (Hall item Hin). }
  assert (Hsame : Forall (sameKeysAs (first arr)) arr).
  { eapply Forall_impl; [| exact Hall]. cbn. intros item [_ Hperm]. split.
    - unfold Set_of. rewrite (nodup_fixed_point jsstring_eq_dec Hnd).
      symmetry. apply Permutation_length. exact Hperm.
    - intros k Hk. eapply Permutation_in; [symmetry; exact Hperm | exact Hk]. }
  split; [apply (isUniformObjectArray_spec Hne Hobj); exact Hsame |].
  destruct (Object_keys (first arr)) as [| k ks] eqn:Hk.
  - apply calculateUniformity_keyless; assumption.
  - apply calculateUniformity_candidate; try assumption.
    + eapply Forall_impl; [| exact Hall]. cbn. intros item [_ Hperm].
      eapply Permutation_NoDup; [exact Hperm | exact Hnd].
    + rewrite Hk. discriminate.
Qed.

Lemma same_keys_any_order_is_candidate_witness :
  isUniformObjectArray shuffledUsers = true
  /\ calculateUniformity shuffledUsers = Fin 1.
Proof.
  apply (same_keys_any_order_is_candidate (arr := shuffledUsers)).
  - discriminate.
  - repeat constructor; cbn; intuition discriminate.
  - repeat constructor.
Defined.

(** ** The reason string *)

Lemma Number_le_not_gt (a b : number) : (a <=? b)%js = true -> (a >? b)%js = false.
Proof.
  unfold Number.le, Number.gt. destruct (Number.cmp a b) as [[| |] |];
    congruence.
Qed.

Lemma Number_ge_not_lt (a b : number) : (a >=? b)%js = true -> (a <? b)%js = false.
Proof.
  unfold Number.ge, Number.lt. destruct (Number.cmp a b) as [[| |] |];
    congruence.
Qed.

Lemma accepted_reasons {host : Host} (config : TOONConfig) (stats : StructuralStats) :
  thresholdsMet config stats = true ->
  exists clause, reasons config stats = [clause].
Proof.
  unfold thresholdsMet, reasons. intros H.
  apply andb_true_iff in H. destruct H as [H Huni].
  apply andb_true_iff in H. destruct H as [_ Hdepth].
  rewrite (Number_le_not_gt _ _ Hdepth), (Number_ge_not_lt _ _ Huni).
  destruct (st_percentTabular stats >=? Fin 80)%js;
    [| destruct (st_percentTabular stats >=? Fin 60)%js]; eexists; reflexivity.
Qed.

(** X7. When [analyzeEligibility] accepts, its reason is one of the two
    commentaries, ["highly tabular data (ideal for TOON)"] or ["moderately
    tabular data (good fit for TOON)"], with no further clause. *)
Theorem accepted_reason_is_commentary :
  forall (host : Host) (data : Value),
    shouldUseTOON (analyzeEligibility data) = true ->
    reason (analyzeEligibility data) = highlyTabular
    \/ reason (analyzeEligibility data) = moderatelyTabular.
Proof.
  intros host data H. unfold analyzeEligibility, decideEligibility in *.
  cbn [shouldUseTOON reason] in *.
  set (stats := analyzeDataStructure data) in *. clearbody stats.
  unfold thresholdsMet, reasons in *.
  apply andb_true_iff in H. destruct H as [H Huni].
  apply andb_true_iff in H. destruct H as [Htab Hdepth].
  rewrite (Number_le_not_gt _ _ Hdepth), (Number_ge_not_lt _ _ Huni).
  cbn [eligibility DEFAULT_CONFIG minTabularPercent] in Htab.
  destruct (st_percentTabular stats >=? Fin 80)%js; [left; reflexivity |].
  rewrite Htab. right. reflexivity.
Qed.

Lemma accepted_reason_is_commentary_witness :
  @reason (@analyzeEligibility sampleHost usersTable) = highlyTabular
  \/ @reason (@analyzeEligibility sampleHost usersTable) = moderatelyTabular.
Proof.
  apply (@accepted_reason_is_commentary sampleHost usersTable). reflexivity.
Defined.

(** ** Pre-processing *)

Ltac run_preProcess request :=
  unfold preProcessRequest, calculateTokenSavings, encodeToTOON, entered,
    invoke, bind, ret, throw, result, trace;
  destruct (truthy (data request)) eqn:Htruthy; cbn [negb fst snd app];
  [ destruct (shouldUseTOON (analyzeEligibility (data request))) eqn:Helig;
    cbn [negb fst snd app];
    [ destruct (JSON_stringify (data request)) as [[jsonString |] | stringifyError]
        eqn:Hjson;
      destruct (toonEncode (data request)) as [toonString | encodeError] eqn:Htoon;
      cbn [negb fst snd app]
    | ]
  | ].

(** X8. Whenever pre-processing returns, the prompts are those of the
    request and [toonProcessed] equals the report's [shouldUseTOON]; a
    processed request carries the encoder's output as [data] together with
    metrics, an unprocessed one carries the original [data] and no
    metrics. *)
Theorem preProcess_result_shape :
  forall (host : Host) (request : LLMRequest) (r : PreProcessResult),
    result (preProcessRequest request) = Returned r ->
    pr_systemPrompt (pre_request r) = systemPrompt request
    /\ pr_userMessage (pre_request r) = userMessage request
    /\ toonProcessed (pre_request r) = shouldUseTOON (pre_eligibility r)
    /\ if toonProcessed (pre_request r)
       then exists encoded m,
           toonEncode (data request) = Returned encoded
           /\ pr_data (pre_request r) = VStr encoded
           /\ metrics (pre_request r) = Some m
           /\ pre_eligibility r = analyzeEligibility (data request)
       else pr_data (pre_request r) = data request
            /\ metrics (pre_request r) = None.
Proof.
  intros host request r. run_preProcess request; intros H;
    try discriminate; injection H as <-;
    cbn [pre_request pre_eligibility pr_systemPrompt pr_userMessage pr_data
         toonProcessed metrics unprocessed noDataReport shouldUseTOON];
    rewrite ?Helig; repeat split;
    try reflexivity; do 2 eexists; repeat split; reflexivity.
Qed.

Lemma preProcess_result_shape_witness :
  exists r : PreProcessResult,
    result (@preProcessRequest sampleHost (mkLLMRequest [] [] usersTable)) = Returned r
    /\ toonProcessed (pre_request r) = true
    /\ pr_data (pre_request r) = VStr oneRowTable.
Proof.
  eexists. split; [reflexivity |].
  destruct (@preProcess_result_shape sampleHost (mkLLMRequest [] [] usersTable)
              _ eq_refl) as (_ & _ & Hp & Hshape).
  split; [exact Hp |]. reflexivity.
Defined.

(** X9. Pre-processing throws only on data that is present and eligible,
    and then because [JSON.stringify] threw, the encoder threw, or
    [JSON.stringify] returned [undefined]. Absent or ineligible data never
    makes it throw. *)
Theorem preProcess_throws_only_when_eligible :
  forall (host : Host) (request : LLMRequest) (e : Exn),
    result (preProcessRequest request) = Thrown e ->
    truthy (data request) = true
    /\ shouldUseTOON (analyzeEligibility (data request)) = true
    /\ (JSON_stringify (data request) = Thrown e
        \/ toonEncode (data request) = Thrown e
        \/ (JSON_stringify (data request) = Returned None /\ e = TypeError)).
Proof.
  intros host request e. run_preProcess request; intros H;
    try discriminate; injection H as <-; repeat split; auto.
Qed.

Lemma preProcess_throws_only_when_eligible_witness :
  result (@preProcessRequest brokenEncoderHost (mkLLMRequest [] [] usersTable))
  = Thrown CodecError
  /\ truthy usersTable = true
  /\ shouldUseTOON (@analyzeEligibility brokenEncoderHost usersTable) = true.
Proof.
  split; [reflexivity |].
  destruct (@preProcess_throws_only_when_eligible brokenEncoderHost
              (mkLLMRequest [] [] usersTable) CodecError eq_refl) as (H1 & H2 & _).
  split; assumption.
Defined.

(** X10. The codec and [JSON.stringify] are only ever called on the data of
    the request, and only when that data is present and eligible. *)
Theorem codec_called_only_on_eligible_data :
  forall (host : Host) (request : LLMRequest) (d : Value),
    In (Call_encodeToTOON d) (trace (preProcessRequest request))
    \/ In (Call_JSON_stringify d) (trace (preProcessRequest request)) ->
    d = data request
    /\ truthy (data request) = true
    /\ shouldUseTOON (analyzeEligibility (data request)) = true.
Proof.
  intros host request d. run_preProcess request; cbn [In];
    intros H; repeat split; intuition (try discriminate; congruence).
Qed.

Lemma codec_called_only_on_eligible_data_witness :
  In (Call_encodeToTOON usersTable)
     (trace (@preProcessRequest sampleHost (mkLLMRequest [] [] usersTable)))
  /\ truthy usersTable = true
  /\ shouldUseTOON (@analyzeEligibility sampleHost usersTable) = true.
Proof.
  assert (Hin : In (Call_encodeToTOON usersTable)
                   (trace (@preProcessRequest sampleHost
                             (mkLLMRequest [] [] usersTable))))
    by (cbn; tauto).
  split; [exact Hin |].
  apply (@codec_called_only_on_eligible_data sampleHost
           (mkLLMRequest [] [] usersTable) usersTable (or_introl Hin)).
Defined.

(** X11. On present, eligible data, with both serialisations produced,
    pre-processing calls the analyzer, the estimator (one [JSON.stringify],
    one encode) and the encoder once more, in that order, and returns the
    request with [data] replaced by the encoded text and the estimator's
    metrics attached. *)
Theorem preProcess_encodes_eligible_data :
  forall (host : Host) (request : LLMRequest) (jsonString toonString : jsstring),
    truthy (data request) = true ->
    shouldUseTOON (analyzeEligibility (data request)) = true ->
    JSON_stringify (data request) = Returned (Some jsonString) ->
    toonEncode (data request) = Returned toonString ->
    exists m : TokenMetrics,
      result (calculateTokenSavings (data request)) = Returned m
      /\ preProcessRequest request
         = ([Call_analyzeEligibility (data request);
             Call_calculateTokenSavings (data request);
             Call_JSON_stringify (data request);
             Call_encodeToTOON (data request);
             Call_encodeToTOON (data request)],
            Returned
              (mkPreProcessResult
                 (mkProcessedRequest (systemPrompt request) (userMessage request)
                                     (VStr toonString) true (Some m))
                 (analyzeEligibility (data request)))).
Proof.
  intros host request jsonString toonString Ht He Hj Henc.
  unfold preProcessRequest, calculateTokenSavings, encodeToTOON, entered,
    invoke, bind, ret, result.
  rewrite Ht. cbn [negb fst snd app]. rewrite He, Hj, Henc. cbn [negb fst snd app].
  eexists. split; reflexivity.
Qed.

Lemma preProcess_encodes_eligible_data_witness :
  exists m : TokenMetrics,
    result (@calculateTokenSavings sampleHost usersTable) = Returned m
    /\ @preProcessRequest sampleHost (mkLLMRequest [] [] usersTable)
       = ([Call_analyzeEligibility usersTable; Call_calculateTokenSavings usersTable;
           Call_JSON_stringify usersTable; Call_encodeToTOON usersTable;
           Call_encodeToTOON usersTable],
          Returned
            (mkPreProcessResult
               (mkProcessedRequest [] [] (VStr oneRowTable) true (Some m))
               (@analyzeEligibility sampleHost usersTable))).
Proof.
  exact (@preProcess_encodes_eligible_data sampleHost (mkLLMRequest [] [] usersTable)
           _ _ eq_refl eq_refl eq_refl eq_refl).
Defined.

(** ** Post-processing *)

(** X12. When the trimmed content passes the sniff and the decoder returns
    a value, that value is the result, with [format:'toon'] and no error
    field, and [JSON.parse] is not called. *)
Theorem postProcess_decodes_toon :
  forall (host : Host) (response : LLMResponse) (v : Value),
    Contains re_arrayLength (trim (content response)) ->
    Contains re_fieldList (trim (content response)) ->
    toonDecode (trim (content response)) = Returned v ->
    postProcessResponse response
    = ([Call_decodeFromTOON (trim (content response))],
       Returned (mkPostProcessResult (Some v) true format_toon None))
    /\ (forall self : TOONProcessor.t,
           TOONProcessor.postProcess self response = postProcessResponse response).
Proof.
  intros host response v H1 H2 Hdec.
  split; [| intros self; apply postProcess_same].
  assert (Hsniff : isTOONFormat (trim (content response)) = true)
    by (apply isTOONFormat_spec; split; assumption).
  unfold postProcessResponse.
  destruct (content response) as [| x r] eqn:Ec.
  - vm_compute in Hsniff. discriminate.
  - rewrite Hsniff. cbn [negb]. unfold decodeFromTOON, invoke, bind, tryCatch.
    rewrite Hdec. reflexivity.
Qed.

Lemma postProcess_decodes_toon_witness :
  @postProcessResponse decodingHost (mkLLMResponse (oneRowTable ++ lit "  "))
  = ([Call_decodeFromTOON oneRowTable],
     Returned (mkPostProcessResult
                 (Some (VObj [(lit "rows", VArr [VObj [(lit "a", int 1)]])]))
                 true format_toon None))
  /\ (forall self : TOONProcessor.t,
         @TOONProcessor.postProcess decodingHost self
                                    (mkLLMResponse (oneRowTable ++ lit "  "))
         = @postProcessResponse decodingHost (mkLLMResponse (oneRowTable ++ lit "  "))).
Proof.
  assert (Hsniff : isTOONFormat (trim (oneRowTable ++ lit "  ")) = true)
    by reflexivity.
  apply isTOONFormat_spec in Hsniff. destruct Hsniff as [H1 H2].
  exact (@postProcess_decodes_toon decodingHost
           (mkLLMResponse (oneRowTable ++ lit "  ")) _ H1 H2 eq_refl).
Defined.

(** X13. Post-processing never throws, whatever the decoder and
    [JSON.parse] do, and its result is coherent: [format:'toon'] carries
    the decoder's value and no error, [format:'json'] carries the value of
    [JSON.parse] on the original content and the fallback notice, and
    [format:'none'] carries [success:false] and no value. *)
Theorem postProcess_never_throws :
  forall (host : Host) (response : LLMResponse),
    exists r : PostProcessResult,
      result (postProcessResponse response) = Returned r
      /\ match format r with
         | format_toon =>
             success r = true /\ error r = None
             /\ exists v, parsed r = Some v
                          /\ toonDecode (trim (content response)) = Returned v
         | format_json =>
             success r = true
             /\ error r = Some (lit "TOON decode failed, fell back to JSON")
             /\ exists v, parsed r = Some v
                          /\ JSON_parse (content response) = Returned v
         | format_none => success r = false /\ parsed r = None
         end.
Proof.
  intros host response. unfold postProcessResponse.
  destruct (content response) as [| x r] eqn:Ec.
  - eexists. split; [reflexivity |]. cbn. split; reflexivity.
  - destruct (isTOONFormat (trim (x :: r))); cbn [negb].
    + unfold decodeFromTOON, invoke, bind, tryCatch, result.
      destruct (toonDecode (trim (x :: r))) as [v | e] eqn:Hdec.
      * eexists. split; [reflexivity |]. cbn. repeat split. eauto.
      * destruct (JSON_parse (x :: r)) as [v | e'] eqn:Hjson.
        -- eexists. split; [reflexivity |]. cbn. repeat split. eauto.
        -- eexists. split; [reflexivity |]. cbn. split; reflexivity.
    + eexists. split; [reflexivity |]. cbn. split; reflexivity.
Qed.

(** *** The sniff and white space *)

Lemma trimStart_suffix (s : jsstring) : exists l, s = l ++ trimStart s.
Proof.
  induction s as [| c r [l IH]].
  - exists []. reflexivity.
  - cbn. destruct (isTrimmable c).
    + exists (c :: l). cbn. rewrite <- IH. reflexivity.
    + exists []. reflexivity.
Qed.

Lemma trimStart_keeps (pre rest : jsstring) (a : N) :
  isTrimmable a = false ->
  exists pre', trimStart (pre ++ a :: rest) = pre' ++ a :: rest.
Proof.
  intros Ha. induction pre as [| c pre IH].
  - exists []. cbn. rewrite Ha. reflexivity.
  - cbn. destruct (isTrimmable c).
    + exact IH.
    + exists (c :: pre). reflexivity.
Qed.

(** The trimmed text sits inside the original. *)
Lemma trim_infix (s : jsstring) : exists l r, s = l ++ trim s ++ r.
Proof.
  unfold trim.
  destruct (trimStart_suffix s) as [l Hl].
  destruct (trimStart_suffix (rev (trimStart s))) as [l2 Hl2].
  exists l, (rev l2).
  rewrite <- rev_app_distr, <- Hl2, rev_involutive. exact Hl.
Qed.

Lemma rev_around (x post : jsstring) (b : N) :
  rev (x ++ b :: post) = rev post ++ b :: rev x.
Proof. rewrite rev_app_distr. cbn [rev]. rewrite <- app_assoc. reflexivity. Qed.

(** A stretch of text that starts and ends on code units that are not
    white space survives trimming. *)
Lemma trim_keeps (pre mid post : jsstring) (a b : N) :
  isTrimmable a = false -> isTrimmable b = false ->
  exists pre' post',
    trim (pre ++ (a :: mid ++ [b]) ++ post) = pre' ++ (a :: mid ++ [b]) ++ post'.
Proof.
  intros Ha Hb. unfold trim.
  destruct (@trimStart_keeps pre ((mid ++ [b]) ++ post) a Ha) as [pre' Hpre].
  replace (pre ++ (a :: mid ++ [b]) ++ post)
    with (pre ++ a :: (mid ++ [b]) ++ post) by reflexivity.
  rewrite Hpre.
  assert (E : pre' ++ a :: (mid ++ [b]) ++ post = (pre' ++ a :: mid) ++ b :: post)
    by (rewrite <- !app_assoc; reflexivity).
  rewrite E, rev_around.
  destruct (@trimStart_keeps (rev post) (rev (pre' ++ a :: mid)) b Hb)
    as [post' Hpost].
  rewrite Hpost, rev_around, rev_involutive.
  exists pre', (rev post'). cbn [app]. rewrite <- !app_assoc. reflexivity.
Qed.

Lemma Contains_infix (p : list atom) (l s r : jsstring) :
  Contains p s -> Contains p (l ++ s ++ r).
Proof.
  intros (pre & m & post & -> & Hm).
  exists (l ++ pre), m, (post ++ r). split; [| exact Hm].
  rewrite <- !app_assoc. reflexivity.
Qed.

Lemma Contains_trim_arrayLength (s : jsstring) :
  Contains re_arrayLength (trim s) <-> Contains re_arrayLength s.
Proof.
  split.
  - intros H. destruct (trim_infix s) as (l & r & E). rewrite E.
    apply Contains_infix. exact H.
  - intros (pre & m & post & -> & Hm).
    pose proof Hm as Hm'. apply Matches_arrayLength in Hm'.
    destruct Hm' as (digits & _ & _ & ->).
    destruct (@trim_keeps pre digits post 91 93 eq_refl eq_refl) as (pre' & post' & E).
    exists pre', ([91%N] ++ digits ++ [93%N]), post'. split; [exact E | exact Hm].
Qed.

Lemma Contains_trim_fieldList (s : jsstring) :
  Contains re_fieldList (trim s) <-> Contains re_fieldList s.
Proof.
  split.
  - intros H. destruct (trim_infix s) as (l & r & E). rewrite E.
    apply Contains_infix. exact H.
  - intros (pre & m & post & -> & Hm).
    pose proof Hm as Hm'. apply Matches_fieldList in Hm'.
    destruct Hm' as (body & _ & _ & ->).
    destruct (@trim_keeps pre body post 123 125 eq_refl eq_refl) as (pre' & post' & E).
    exists pre', ([123%N] ++ body ++ [125%N]), post'. split; [exact E | exact Hm].
Qed.

Lemma isTOONFormat_trim (text : jsstring) :
  isTOONFormat (trim text) = isTOONFormat text.
Proof.
  apply eq_true_iff_eq.
  rewrite !isTOONFormat_spec, Contains_trim_arrayLength, Contains_trim_fieldList.
  reflexivity.
Qed.

(** X14. Trimming never changes the verdict of the format sniff: the
    trimmed content passes exactly when the original content does. *)
Theorem sniff_ignores_surrounding_whitespace :
  forall text : jsstring, isTOONFormat (trim text) = isTOONFormat text.
Proof. exact isTOONFormat_trim. Qed.

Lemma Contains_arrayLength_brackets (s : jsstring) :
  Contains re_arrayLength s -> In 91%N s /\ In 93%N s.
Proof.
  intros (pre & m & post & -> & Hm). apply Matches_arrayLength in Hm.
  destruct Hm as (digits & _ & _ & ->).
  split; rewrite !in_app_iff; cbn; auto 8.
Qed.

Lemma Contains_fieldList_braces (s : jsstring) :
  Contains re_fieldList s -> In 123%N s /\ In 125%N s.
Proof.
  intros (pre & m & post & -> & Hm). apply Matches_fieldList in Hm.
  destruct Hm as (body & _ & _ & ->).
  split; rewrite !in_app_iff; cbn; auto 8.
Qed.

(** X15. Content that lacks one of the four characters [[], []], [{], [}]
    is never handed to the decoder, whatever it would have made of it:
    post-processing answers [{success:false, format:'none'}] without any
    call. A TOON document without a tabular array is such a content. *)
Theorem content_without_markers_is_rejected :
  forall (host : Host) (response : LLMResponse),
    ~ In 91%N (content response) \/ ~ In 93%N (content response)
    \/ ~ In 123%N (content response) \/ ~ In 125%N (content response) ->
    postProcessResponse response = ([], Returned sniffRejected)
    /\ (forall self : TOONProcessor.t,
           TOONProcessor.postProcess self response = ([], Returned sniffRejected)).
Proof.
  intros host response Hmissing.
  assert (Hsniff : isTOONFormat (trim (content response)) = false).
  { rewrite isTOONFormat_trim.
    apply isTOONFormat_false. intros [H1 H2].
    apply Contains_arrayLength_brackets in H1.
    apply Contains_fieldList_braces in H2. tauto. }
  split; [| intros self; rewrite postProcess_same];
    apply postProcessResponse_rejected; exact Hsniff.
Qed.

Lemma content_without_markers_is_rejected_witness :
  @postProcessResponse decodingHost (mkLLMResponse (lit "name: Alice"))
  = ([], Returned sniffRejected)
  /\ (forall self : TOONProcessor.t,
         @TOONProcessor.postProcess decodingHost self (mkLLMResponse (lit "name: Alice"))
         = ([], Returned sniffRejected)).
Proof.
  apply (@content_without_markers_is_rejected decodingHost
           (mkLLMResponse (lit "name: Alice"))).
  left. cbn. intuition discriminate.
Defined.

(** X16. Every text that holds a tabular header, a bracketed run of digits
    directly followed by a braced, non-empty field list, passes the sniff,
    whatever surrounds the header. *)
Theorem tabular_header_passes_sniff :
  forall before digits fields after : jsstring,
    digits <> [] ->
    Forall (fun c => isDigit c = true) digits ->
    fields <> [] ->
    Forall (fun c => c <> 125%N) fields ->
    isTOONFormat (before ++ ([91%N] ++ digits ++ [93%N])
                         ++ ([123%N] ++ fields ++ [125%N]) ++ after) = true.
Proof.
  intros before digits fields after Hd Hdigits Hf Hfields.
  apply isTOONFormat_spec. split.
  - exists before, ([91%N] ++ digits ++ [93%N]),
      (([123%N] ++ fields ++ [125%N]) ++ after).
    split; [reflexivity |]. apply Matches_arrayLength. eauto.
  - exists (before ++ [91%N] ++ digits ++ [93%N]), ([123%N] ++ fields ++ [125%N]), after.
    split; [rewrite <- !app_assoc; reflexivity |].
    apply Matches_fieldList. eauto.
Qed.

Lemma tabular_header_passes_sniff_witness :
  isTOONFormat (lit "users" ++ ([91%N] ++ lit "2" ++ [93%N])
                  ++ ([123%N] ++ lit "id,name" ++ [125%N]) ++ lit ":") = true.
Proof.
  apply (@tabular_header_passes_sniff (lit "users") (lit "2") (lit "id,name") (lit ":")).
  - discriminate.
  - repeat constructor.
  - discriminate.
  - repeat constructor; discriminate.
Defined.

(** ** Token estimate *)

Lemma str_length_app (a b : jsstring) :
  str_length (a ++ b) = (str_length a + str_length b)%Z.
Proof. unfold str_length. rewrite length_app. lia. Qed.

(** X17. [countTokens(text)] is [(length + 3) div 4]; it is 0 only for the
    empty string, and appending text never lowers it nor raises it by more
    than the count of the appended text. *)
Theorem countTokens_arithmetic :
  forall a b : jsstring,
    countTokens a = ((str_length a + 3) / 4)%Z
    /\ (countTokens a = 0%Z <-> a = [])
    /\ (countTokens a <= countTokens (a ++ b) <= countTokens a + countTokens b)%Z.
Proof.
  intros a b.
  pose proof (countTokens_bounds a) as Ha.
  pose proof (countTokens_bounds b) as Hb.
  pose proof (countTokens_bounds (a ++ b)) as Hab.
  rewrite str_length_app in Hab.
  assert (Hla : (0 <= str_length a)%Z) by (unfold str_length; lia).
  assert (Hlb : (0 <= str_length b)%Z) by (unfold str_length; lia).
  split; [| split].
  - apply Z.div_unique with (r := (str_length a + 3 - 4 * countTokens a)%Z); lia.
  - split.
    + intros H0. rewrite H0 in Ha. destruct a; [reflexivity |].
      unfold str_length in Ha. cbn [List.length] in Ha. lia.
    + intros ->. reflexivity.
  - lia.
Qed.

(** X18. The reported [percentSaved] never exceeds 100, and it is positive
    exactly when the TOON text is estimated at fewer tokens than the JSON
    text. *)
Theorem percentSaved_at_most_100 :
  forall (host : Host) (data : Value) (jsonString toonString : jsstring),
    JSON_stringify data = Returned (Some jsonString) ->
    toonEncode data = Returned toonString ->
    exists (m : TokenMetrics) (q : Q),
      result (calculateTokenSavings data) = Returned m
      /\ percentSaved m = Fin q
      /\ (q <= 100)%Q
      /\ ((0 < q)%Q <-> (toon m < original m)%Z).
Proof.
  intros host data jsonString toonString Hjson Htoon.
  unfold calculateTokenSavings, encodeToTOON, invoke, bind, result.
  rewrite Hjson, Htoon. cbn [snd ret].
  pose proof (countTokens_nonneg jsonString) as Ho.
  pose proof (countTokens_nonneg toonString) as Ht.
  set (o := countTokens jsonString) in *. set (t := countTokens toonString) in *.
  clearbody o t.
  destruct (Z.ltb_spec 0 o) as [Hpos | Hzero].
  - eexists. exists (Qred (100 * inject_Z (o - t) / inject_Z o)).
    split; [reflexivity |]. cbn [percentSaved original toon].
    split; [apply percent_of; exact Hpos |].
    rewrite Qred_correct.
    destruct o as [| p | p]; try lia.
    unfold Qle, Qlt, Qdiv, Qmult, Qinv, inject_Z; cbn [Qnum Qden].
    split; [| split]; nia.
  - eexists. exists 0%Q. split; [reflexivity |]. cbn [percentSaved original toon].
    split; [reflexivity |]. split; [unfold Qle; cbn; lia |].
    split; [intros H; unfold Qlt in H; cbn in H; lia | lia].
Qed.

Lemma percentSaved_at_most_100_witness :
  exists (m : TokenMetrics) (q : Q),
    result (@calculateTokenSavings sampleHost usersTable) = Returned m
    /\ percentSaved m = Fin q
    /\ (q <= 100)%Q
    /\ ((0 < q)%Q <-> (toon m < original m)%Z).
Proof.
  exact (@percentSaved_at_most_100 sampleHost usersTable _ _ eq_refl eq_refl).
Defined.

(** ** The processor's configuration *)




(** ** The hooks layer *)



Lemma postProcessResponse_returns {host : Host} (response : LLMResponse) :
  exists t r, postProcessResponse response = (t, Returned r).
Proof.
  unfold postProcessResponse.
  destruct (content response) as [| x s]; [eexists; eexists; reflexivity |].
  destruct (isTOONFormat (trim (x :: s))); cbn [negb];
    [| eexists; eexists; reflexivity].
  unfold decodeFromTOON, invoke, bind, tryCatch.
  destruct (toonDecode (trim (x :: s))); [eexists; eexists; reflexivity |].
  destruct (JSON_parse (x :: s)); eexists; eexists; reflexivity.
Qed.

(** [process], step by step. *)
Lemma process_run {host : Host} (self : AutoTOON.t) (request : LLMRequest)
      (llmCall : ProcessedRequest -> outcome LLMResponse) :
  AutoTOON.process self request llmCall
  = match preProcessRequest request with
    | (t, Thrown e) => (map Core t, Thrown e)
    | (t, Returned pre) =>
        let sent := sentRequest self (pre_request pre) in
        let before :=
          map Core t ++ loggedMetrics self (pre_request pre) ++ [LLM_call sent] in
        match llmCall sent with
        | Thrown e => (before, Thrown e)
        | Returned response =>
            (before ++ map Core (trace (postProcessResponse response)),
             match result (postProcessResponse response) with
             | Thrown e => Thrown e
             | Returned postResult =>
                 Returned
                   (mkProcessResult request sent (pre_eligibility pre)
                                    (metrics sent) response
                                    (parsedOrContent postResult response)
                                    (savingsOrZero (metrics sent)))
             end)
        end
    end.
Proof.
  unfold AutoTOON.process. rewrite preProcess_same.
  destruct (preProcessRequest request) as [t [pre | e]]; [| reflexivity].
  unfold liftCore, hbind, hret, emit, loggedMetrics, sentRequest.
  cbn [fst snd].
  set (sent := if isTrue (addInstructions (AutoTOON.config self))
                  && toonProcessed (pre_request pre)
               then _ else _).
  assert (Hm : metrics sent = metrics (pre_request pre)).
  { unfold sent. destruct (_ && _); reflexivity. }
  destruct (metrics (pre_request pre)) as [m |] eqn:Em;
    [destruct (isTrue (logMetrics (AutoTOON.config self))) |];
    cbn [app]; destruct (llmCall sent) as [response | e];
    rewrite ?app_nil_r; try reflexivity;
    rewrite postProcess_same;
    destruct (postProcessResponse response) as [t2 [post | e2]];
    cbn [fst snd trace result app]; rewrite ?app_nil_r, <- ?app_assoc;
    cbn [app]; reflexivity.
Qed.

Lemma preProcessRequest_passthrough {host : Host} (request : LLMRequest) :
  truthy (data request) = false
  \/ shouldUseTOON (analyzeEligibility (data request)) = false ->
  exists t,
    preProcessRequest request
    = (t, Returned (mkPreProcessResult
                      (unprocessed request)
                      (if truthy (data request)
                       then analyzeEligibility (data request)
                       else noDataReport))).
Proof.
  intros H. unfold preProcessRequest, entered, bind, ret.
  destruct (truthy (data request)) eqn:Ht; cbn [negb fst snd].
  - destruct H as [H | H]; [discriminate |]. rewrite H. cbn [negb app].
    eexists. reflexivity.
  - eexists. reflexivity.
Qed.

(** X21. When the data of a request is absent or not eligible, [process]
    hands the request to the LLM function as it came (same prompts, same
    data, [toonProcessed = false]), logs nothing, and reports no metrics
    and zero token savings; the response is post-processed all the same. *)
Theorem process_passes_ineligible_through :
  forall (host : Host) (self : AutoTOON.t) (request : LLMRequest)
         (llmCall : ProcessedRequest -> outcome LLMResponse) (response : LLMResponse),
    truthy (data request) = false
    \/ shouldUseTOON (analyzeEligibility (data request)) = false ->
    llmCall (unprocessed request) = Returned response ->
    exists postResult : PostProcessResult,
      result (postProcessResponse response) = Returned postResult
      /\ AutoTOON.process self request llmCall
         = (map Core (trace (preProcessRequest request))
              ++ [LLM_call (unprocessed request)]
              ++ map Core (trace (postProcessResponse response)),
            Returned
              (mkProcessResult request (unprocessed request)
                 (if truthy (data request)
                  then analyzeEligibility (data request)
                  else noDataReport)
                 None response (parsedOrContent postResult response) 0)).
Proof.
  intros host self request llmCall response Hin Hcall.
  destruct (postProcessResponse_returns response) as (t2 & post & Hpost).
  exists post. split; [rewrite Hpost; reflexivity |].
  rewrite process_run.
  destruct (preProcessRequest_passthrough request Hin) as (t & Hpre).
  rewrite Hpre. cbn [pre_request pre_eligibility trace fst].
  assert (Hsent : sentRequest self (unprocessed request) = unprocessed request).
  { unfold sentRequest. cbn [toonProcessed unprocessed].
    rewrite andb_false_r. reflexivity. }
  cbv zeta. rewrite Hsent, Hcall, Hpost.
  cbn [loggedMetrics metrics unprocessed app trace result fst snd savingsOrZero].
  rewrite <- app_assoc. reflexivity.
Qed.

Lemma process_passes_ineligible_through_witness :
  exists postResult : PostProcessResult,
    result (@postProcessResponse sampleHost
              (mkLLMResponse (lit "Nothing unusual in these records.")))
    = Returned postResult
    /\ @AutoTOON.process sampleHost (AutoTOON.new None)
         (mkLLMRequest (lit "You are a data analyst") (lit "Analyze") nestedOnly)
         answerProse
       = ([Core (Call_analyzeEligibility nestedOnly);
           LLM_call (mkProcessedRequest (lit "You are a data analyst") (lit "Analyze")
                                        nestedOnly false None)],
          Returned
            (mkProcessResult
               (mkLLMRequest (lit "You are a data analyst") (lit "Analyze") nestedOnly)
               (mkProcessedRequest (lit "You are a data analyst") (lit "Analyze")
                                   nestedOnly false None)
               (@analyzeEligibility sampleHost nestedOnly)
               None
               (mkLLMResponse (lit "Nothing unusual in these records."))
               (VStr (lit "Nothing unusual in these records."))
               0)).
Proof.
  destruct (@process_passes_ineligible_through sampleHost (AutoTOON.new None)
              (mkLLMRequest (lit "You are a data analyst") (lit "Analyze") nestedOnly)
              answerProse _ (or_intror eq_refl) eq_refl)
    as (post & Hpost & Hrun).
  exists post. split; [exact Hpost |].
  rewrite Hrun. injection Hpost as <-. reflexivity.
Defined.

(** X22. On present, eligible data that the host can serialise, the
    request [process] hands to the LLM function has the encoded text as
    [data], the metrics attached, and the instruction block appended to
    the system prompt unless [addInstructions] was switched off; the
    metrics line is logged first unless [logMetrics] was switched off. *)
Theorem process_sends_encoded_request :
  forall (host : Host) (self : AutoTOON.t) (request : LLMRequest)
         (llmCall : ProcessedRequest -> outcome LLMResponse)
         (jsonString toonString : jsstring),
    truthy (data request) = true ->
    shouldUseTOON (analyzeEligibility (data request)) = true ->
    JSON_stringify (data request) = Returned (Some jsonString) ->
    toonEncode (data request) = Returned toonString ->
    exists (m : TokenMetrics) (rest : list HookEvent),
      result (calculateTokenSavings (data request)) = Returned m
      /\ fst (AutoTOON.process self request llmCall)
         = map Core (trace (preProcessRequest request))
             ++ (if isTrue (logMetrics (AutoTOON.config self))
                 then [Console_log (AutoTOON.metricsLine m)]
                 else [])
             ++ LLM_call
                  (mkProcessedRequest
                     (if isTrue (addInstructions (AutoTOON.config self))
                      then systemPrompt request ++ instructionBlock
                      else systemPrompt request)
                     (userMessage request) (VStr toonString) true (Some m))
             :: rest.
Proof.
  intros host self request llmCall jsonString toonString Ht He Hj Henc.
  rewrite process_run.
  unfold preProcessRequest, calculateTokenSavings, encodeToTOON, entered,
    invoke, bind, ret, result, trace.
  rewrite Ht. cbn [negb fst snd app]. rewrite He, Hj, Henc. cbn [negb fst snd app].
  eexists. cbv zeta. unfold sentRequest, loggedMetrics, withSystemPrompt,
    AutoTOON.addTOONInstructions.
  cbn [pre_request pre_eligibility metrics toonProcessed pr_systemPrompt
       pr_userMessage pr_data].
  rewrite andb_true_r.
  destruct (isTrue (addInstructions (AutoTOON.config self)));
    destruct (isTrue (logMetrics (AutoTOON.config self)));
    match goal with
    | |- context [llmCall ?r] => destruct (llmCall r) as [response | e]
    end;
    cbn [fst app]; eexists; (split; [reflexivity |]);
    rewrite <- ?app_assoc; cbn [app]; reflexivity.
Qed.

Lemma process_sends_encoded_request_witness :
  exists (m : TokenMetrics) (rest : list HookEvent),
    result (@calculateTokenSavings sampleHost usersTable) = Returned m
    /\ fst (@AutoTOON.process sampleHost (AutoTOON.new None)
              (mkLLMRequest (lit "You are a data analyst") [] usersTable) echoJSON)
       = map Core (trace (@preProcessRequest sampleHost
                            (mkLLMRequest (lit "You are a data analyst") [] usersTable)))
           ++ [Console_log (@AutoTOON.metricsLine sampleHost m)]
           ++ LLM_call
                (mkProcessedRequest (lit "You are a data analyst" ++ instructionBlock)
                                    [] (VStr oneRowTable) true (Some m))
           :: rest.
Proof.
  exact (@process_sends_encoded_request sampleHost (AutoTOON.new None)
           (mkLLMRequest (lit "You are a data analyst") [] usersTable) echoJSON
           _ _ eq_refl eq_refl eq_refl eq_refl).
Defined.

(** X23. [process] fails only when pre-processing throws or the LLM
    function rejects: a response that cannot be decoded never fails the
    call. When it returns, the original request is reported untouched, the
    response is the one the LLM function gave for the request sent, and
    [parsedResponse] is the truthy value post-processing parsed or else the
    raw content. *)
Theorem process_fails_only_before_the_response :
  forall (host : Host) (self : AutoTOON.t) (request : LLMRequest)
         (llmCall : ProcessedRequest -> outcome LLMResponse),
    match snd (AutoTOON.process self request llmCall) with
    | Thrown e =>
        result (preProcessRequest request) = Thrown e
        \/ exists sent, llmCall sent = Thrown e
    | Returned res =>
        originalRequest res = request
        /\ llmCall (toonRequest res) = Returned (llmResponse res)
        /\ res_metrics res = metrics (toonRequest res)
        /\ (parsedResponse res = VStr (content (llmResponse res))
            \/ exists postResult,
                result (postProcessResponse (llmResponse res)) = Returned postResult
                /\ parsed postResult = Some (parsedResponse res)
                /\ truthy (parsedResponse res) = true)
    end.
Proof.
  intros host self request llmCall. rewrite process_run.
  destruct (preProcessRequest request) as [t [pre | e]] eqn:Hpre;
    [| left; reflexivity].
  cbv zeta. destruct (llmCall (sentRequest self (pre_request pre)))
    as [response | e] eqn:Hcall; cbn [snd]; [| right; eauto].
  destruct (postProcessResponse_returns response) as (t2 & post & Hpost).
  rewrite Hpost. cbn [result snd originalRequest toonRequest llmResponse
                      res_metrics parsedResponse].
  repeat split; [exact Hcall |].
  unfold parsedOrContent. destruct (parsed post) as [v |] eqn:Hv; [| left; reflexivity].
  destruct (truthy v) eqn:Hv'; [| left; reflexivity].
  right. exists post. rewrite Hpost. auto.
Qed.

(** X24. The thresholds given to an [AutoTOON] have no effect on what
    [process] does: with or without [minTabularPercent] and
    [maxNestedDepth], the same request leads to the same events and the
    same result. *)
Theorem hook_thresholds_do_not_change_process :
  forall (host : Host) (instructions logging : option bool)
         (tabular depth : option number) (request : LLMRequest)
         (llmCall : ProcessedRequest -> outcome LLMResponse),
    AutoTOON.process
      (AutoTOON.new (Some (mkTOONHookConfig instructions tabular depth logging)))
      request llmCall
    = AutoTOON.process
        (AutoTOON.new (Some (mkTOONHookConfig instructions None None logging)))
        request llmCall.
Proof.
  intros host instructions logging tabular depth request llmCall.
  rewrite !process_run. reflexivity.
Qed.

(** ** Edge cases of the decision *)

Lemma forallb_repeat {A} (f : A -> bool) (x : A) (n : nat) :
  f x = true -> forallb f (repeat x n) = true.
Proof. intros H. induction n; cbn; [reflexivity | rewrite H; exact IHn]. Qed.

Lemma emptyRecords_candidate (n : nat) :
  isUniformObjectArray (repeat (VObj []) (S n)) = true.
Proof.
  unfold isUniformObjectArray. cbn [repeat List.length Nat.eqb].
  change (VObj [] :: repeat (VObj []) n) with (repeat (VObj []) (S n)).
  rewrite forallb_repeat by reflexivity. cbn [negb].
  apply forallb_repeat. reflexivity.
Qed.

Lemma visitDepth_twice (d : nat) (c : Counters) :
  visitDepth d (visitDepth d c) = visitDepth d c.
Proof. unfold visitDepth; cbn. f_equal. lia. Qed.

Lemma fold_emptyRecords (n : nat) (c : Counters) :
  fold_left (fun c item => traverse item 1 c) (repeat (VObj []) (S n)) c
  = visitDepth 1 c.
Proof.
  revert c. induction n as [| n IH]; intros c; [reflexivity |].
  change (repeat (VObj []) (S (S n))) with (VObj [] :: repeat (VObj []) (S n)).
  cbn [fold_left]. rewrite IH. cbn [traverse fold_left]. apply visitDepth_twice.
Qed.

Lemma emptyRecords_stats (n : nat) :
  analyzeDataStructure (emptyRecords n) = mkStats (Fin 100) 1 NaN.
Proof.
  unfold analyzeDataStructure, emptyRecords. cbn [traverse].
  rewrite emptyRecords_candidate, calculateUniformity_keyless;
    [| discriminate | reflexivity].
  rewrite fold_emptyRecords. reflexivity.
Qed.

(** X25. An array of records that have no fields is analysed as fully
    tabular with a uniformity of [NaN]; the decision is negative although
    the reason reads ["highly tabular data (ideal for TOON)"] and names no
    violation. *)
Theorem empty_records_rejected_as_ideal :
  forall (host : Host) (n : nat),
    analyzeDataStructure (emptyRecords n) = mkStats (Fin 100) 1 NaN
    /\ shouldUseTOON (analyzeEligibility (emptyRecords n)) = false
    /\ reason (analyzeEligibility (emptyRecords n)) = highlyTabular.
Proof.
  intros host n. split; [apply emptyRecords_stats |].
  unfold analyzeEligibility. rewrite emptyRecords_stats. split; reflexivity.
Qed.

Lemma noArrays_not_eligible {host : Host} (data : Value) :
  noArrays data = true -> shouldUseTOON (analyzeEligibility data) = false.
Proof.
  intros Hno.
  destruct (traverse_noArrays data Hno 0 initialCounters) as (Ht & _ & _ & _).
  unfold analyzeEligibility, decideEligibility, thresholdsMet, analyzeDataStructure,
    assemble.
  cbn [shouldUseTOON st_percentTabular]. rewrite Ht. reflexivity.
Qed.

(** X26. Data that holds no array is never encoded: pre-processing returns
    the request unprocessed with a negative report and calls neither the
    encoder nor [JSON.stringify]. *)
Theorem data_without_arrays_is_never_encoded :
  forall (host : Host) (request : LLMRequest),
    noArrays (data request) = true ->
    exists (t : list Call) (report : EligibilityAnalysis),
      preProcessRequest request
      = (t, Returned (mkPreProcessResult (unprocessed request) report))
      /\ shouldUseTOON report = false
      /\ (forall d, ~ In (Call_encodeToTOON d) t)
      /\ (forall d, ~ In (Call_JSON_stringify d) t).
Proof.
  intros host request Hno.
  pose proof (noArrays_not_eligible (data request) Hno) as Hel.
  unfold preProcessRequest, entered, bind, ret.
  destruct (truthy (data request)); cbn [negb fst snd].
  - rewrite Hel. cbn [negb app]. eexists. eexists.
    split; [reflexivity |]. split; [exact Hel |].
    split; intros d [H | []]; discriminate.
  - eexists. eexists. split; [reflexivity |]. split; [reflexivity |].
    split; intros d [].
Qed.

Lemma data_without_arrays_is_never_encoded_witness :
  exists (t : list Call) (report : EligibilityAnalysis),
    @preProcessRequest sampleHost (mkLLMRequest [] [] deeplyNested)
    = (t, Returned (mkPreProcessResult
                      (unprocessed (mkLLMRequest [] [] deeplyNested)) report))
    /\ shouldUseTOON report = false
    /\ (forall d, ~ In (Call_encodeToTOON d) t)
    /\ (forall d, ~ In (Call_JSON_stringify d) t).
Proof.
  exact (@data_without_arrays_is_never_encoded sampleHost
           (mkLLMRequest [] [] deeplyNested) eq_refl).
Defined.
